(** * Room Assets API: the booking routes of [backend/src/app.ts]

    A shallow embedding of the Fastify handlers for bookings, devices and
    auditories, over a model of the three Prisma tables and of the foreign
    keys of the migration.  Instants are milliseconds since the epoch, in [Z].

    A handler is a function from the store and the request to the new
    store and what the handler does (a reply, or an error that escapes to
    [setErrorHandler]).  What a handler reads from its surroundings is an
    argument: the [now] it samples with [new Date()], and for an insert
    the key and the [startTime] the store gives the new row.  Requests are
    served one after the other; the rate limiter, which answers before
    any handler runs, is left out. *)

From stdpp Require Import gmap strings list fin_maps sorting.
From Stdlib Require Import ZArith Lia.

Open Scope string_scope.
Open Scope Z_scope.

(** ** What the handlers take from the JavaScript runtime and from Prisma *)

(** Errors that reach [setErrorHandler].  The Prisma ones carry no
    [statusCode]; [ValidationProblem] (types.ts) has [statusCode = 400]. *)
Inductive ThrownError :=
  | PrismaKnownRequestError (code : string)
  | PrismaValidationError
  | ValidationProblem (msg : string).

(** [Date_parse s] is [new Date(s)]: [None] stands for an Invalid Date.
    [toLocaleTimeString], [STATUS_CODES] (node:http) and the text of the
    Prisma errors are not code of this repository either.
    [capacity_fits c] says whether the column "capacity" can hold [c]: its
    SQL type is declared with the table "Auditory", which is not among the
    sources. *)
Record Host := {
  Date_parse : string → option Z;
  toLocaleTimeString : Z → string;
  STATUS_CODES : Z → option string;
  prisma_message : ThrownError → string;
  capacity_fits : Z → bool
}.

(** ** Tables *)

Record Device := { name : string }.

Record Auditory := { aud_name : string; capacity : Z }.

(** A row of "Booking"; the primary key [id] is the key of the table. *)
Record BookingRow := {
  deviceId : string;
  auditoryId : string;
  startTime : Z;
  endTime : Z
}.

Record Store := {
  devices : gmap string Device;
  auditories : gmap string Auditory;
  bookings : gmap string BookingRow
}.

Definition with_bookings (st : Store) (m : gmap string BookingRow) : Store :=
  {| devices := devices st; auditories := auditories st; bookings := m |}.

Definition with_devices (st : Store) (m : gmap string Device) : Store :=
  {| devices := m; auditories := auditories st; bookings := bookings st |}.

Definition with_auditories (st : Store) (m : gmap string Auditory) : Store :=
  {| devices := devices st; auditories := m; bookings := bookings st |}.

(** ** Replies *)

Record ProblemDetails := {
  p_type : string;
  title : string;
  status : Z;
  detail : string;
  instance : string;
  errorsText : option string
}.

(** A booking as returned with [include: { device: true, auditory: true }]. *)
Record Booking := {
  id : string;
  row : BookingRow;
  device : option (string * Device);
  auditory : option (string * Auditory)
}.

Inductive Body :=
  | BookingBody (b : Booking)
  | DeviceBody (i : string) (d : Device)
  | AuditoryBody (i : string) (a : Auditory)
  | ProblemBody (p : ProblemDetails)
  | EmptyBody.

Record Reply := { code : Z; body : Body }.

(** What a handler does: it sends a reply, or an error escapes it. *)
Inductive Outcome :=
  | Sent (r : Reply)
  | Thrown (e : ThrownError).

(** ** JavaScript truthiness of an optional string *)

(** [if (s)] for [s : string | undefined]: false for [undefined] and [""]. *)
Definition truthy (o : option string) : bool :=
  match o with
  | Some s => negb (bool_decide (s = ""))
  | None => false
  end.

(** [o || d] *)
Definition js_or (o : option string) (d : string) : string :=
  match o with
  | Some s => if bool_decide (s = "") then d else s
  | None => d
  end.

(** [d <= now] for a Date [d]: a comparison with an Invalid Date is false. *)
Definition Date_le (d : option Z) (now : Z) : bool :=
  match d with
  | Some e => bool_decide (e ≤ now)
  | None => false
  end.

(** ** Prisma queries *)

(** [findFirst({ where })]: some row that satisfies [where], if there is one. *)
Definition findFirst (where_ : string → BookingRow → bool)
    (m : gmap string BookingRow) : option (string * BookingRow) :=
  List.find (λ kr, where_ kr.1 kr.2) (map_to_list m).

Definition include (st : Store) (i : string) (r : BookingRow) : Booking :=
  {| id := i; row := r;
     device := (λ d, (deviceId r, d)) <$> devices st !! deviceId r;
     auditory := (λ a, (auditoryId r, a)) <$> auditories st !! auditoryId r |}.

Definition findUnique (st : Store) (i : string) : option Booking :=
  include st i <$> bookings st !! i.

(** [booking.create({ data: { deviceId, auditoryId, endTime } })].  The
    store chooses the key [newId] and, by the column default
    [CURRENT_TIMESTAMP] of the migration, stamps [startTime] with its own
    clock reading [insertedAt]. *)
Definition booking_create (st : Store) (newId : string) (insertedAt : Z)
    (dev aud : string) (endAt : option Z) : ThrownError + Store * Booking :=
  match endAt with
  | None => inl PrismaValidationError
  | Some e =>
      if bool_decide (is_Some (bookings st !! newId)) then
        inl (PrismaKnownRequestError "P2002")
      else if bool_decide (is_Some (devices st !! dev)) &&
              bool_decide (is_Some (auditories st !! aud)) then
        let r := {| deviceId := dev; auditoryId := aud;
                    startTime := insertedAt; endTime := e |} in
        let st' := with_bookings st (<[newId := r]> (bookings st)) in
        inr (st', include st' newId r)
      else inl (PrismaKnownRequestError "P2003")
  end.

(** The [data] object of [booking.update]: a key is [None] when absent. *)
Record UpdateData := {
  data_deviceId : option string;
  data_auditoryId : option string;
  data_endTime : option (option Z)
}.

(** Invalid Dates never reach the table, so [data_endTime] changes the
    row only when it holds a valid instant. *)
Definition apply_data (d : UpdateData) (r : BookingRow) : BookingRow :=
  {| deviceId := default (deviceId r) (data_deviceId d);
     auditoryId := default (auditoryId r) (data_auditoryId d);
     startTime := startTime r;
     endTime := match data_endTime d with
                | Some (Some e) => e
                | _ => endTime r
                end |}.

(** The foreign keys are checked for the columns the statement writes. *)
Definition references_ok (st : Store) (d : UpdateData) : bool :=
  match data_deviceId d with
  | Some dev => bool_decide (is_Some (devices st !! dev))
  | None => true
  end &&
  match data_auditoryId d with
  | Some aud => bool_decide (is_Some (auditories st !! aud))
  | None => true
  end.

Definition booking_update (st : Store) (i : string) (d : UpdateData)
    : ThrownError + Store * Booking :=
  match data_endTime d with
  | Some None => inl PrismaValidationError
  | _ =>
      match bookings st !! i with
      | None => inl (PrismaKnownRequestError "P2025")
      | Some r =>
          if references_ok st d then
            let st' := with_bookings st (<[i := apply_data d r]> (bookings st)) in
            inr (st', include st' i (apply_data d r))
          else inl (PrismaKnownRequestError "P2003")
      end
  end.

Definition booking_delete (st : Store) (i : string) : ThrownError + Store :=
  match bookings st !! i with
  | None => inl (PrismaKnownRequestError "P2025")
  | Some _ => inr (with_bookings st (delete i (bookings st)))
  end.

(** "Booking_deviceId_fkey" is [ON UPDATE CASCADE]: when the key of
    device [i] becomes [k], the bookings of [i] follow. *)
Definition follow_device (i k : string) (r : BookingRow) : BookingRow :=
  if bool_decide (deviceId r = i)
  then {| deviceId := k; auditoryId := auditoryId r;
          startTime := startTime r; endTime := endTime r |}
  else r.

Definition cascade_device (i k : string) (m : gmap string BookingRow)
    : gmap string BookingRow :=
  follow_device i k <$> m.

(** "Booking_auditoryId_fkey" is [ON UPDATE CASCADE] as well. *)
Definition follow_auditory (i k : string) (r : BookingRow) : BookingRow :=
  if bool_decide (auditoryId r = i)
  then {| deviceId := deviceId r; auditoryId := k;
          startTime := startTime r; endTime := endTime r |}
  else r.

Definition cascade_auditory (i k : string) (m : gmap string BookingRow)
    : gmap string BookingRow :=
  follow_auditory i k <$> m.

(** [device.update({ where: { id }, data })], [data = { id?, name? }].  An
    [id] in [data] is the new key of the row: it must not be the key of
    another device, and the bookings of the device follow it. *)
Definition device_update (st : Store) (i : string) (key nm : option string)
    : ThrownError + Store * Device :=
  match devices st !! i with
  | None => inl (PrismaKnownRequestError "P2025")
  | Some d =>
      let d' := {| name := default (name d) nm |} in
      match key with
      | None => inr (with_devices st (<[i := d']> (devices st)), d')
      | Some k =>
          if bool_decide (k ≠ i) && bool_decide (is_Some (devices st !! k))
          then inl (PrismaKnownRequestError "P2002")
          else inr ({| devices := <[k := d']> (delete i (devices st));
                       auditories := auditories st;
                       bookings := cascade_device i k (bookings st) |}, d')
      end
  end.

(** [auditory.update({ where: { id }, data })],
    [data = { id?, name?, capacity? }].  A capacity the column cannot hold
    is refused before the statement runs. *)
Definition auditory_update (host : Host) (st : Store) (i : string)
    (key nm : option string) (cap : option Z)
    : ThrownError + Store * Auditory :=
  if match cap with Some c => negb (capacity_fits host c) | None => false end
  then inl (PrismaKnownRequestError "P2020")
  else
    match auditories st !! i with
    | None => inl (PrismaKnownRequestError "P2025")
    | Some a =>
        let a' := {| aud_name := default (aud_name a) nm;
                     capacity := default (capacity a) cap |} in
        match key with
        | None => inr (with_auditories st (<[i := a']> (auditories st)), a')
        | Some k =>
            if bool_decide (k ≠ i) && bool_decide (is_Some (auditories st !! k))
            then inl (PrismaKnownRequestError "P2002")
            else inr ({| devices := devices st;
                         auditories := <[k := a']> (delete i (auditories st));
                         bookings := cascade_auditory i k (bookings st) |}, a')
        end
    end.

(** ** Requests *)

(** Body of POST /api/bookings ([CreateBookingSchema]) with [req.url]. *)
Record CreateBooking := {
  c_url : string;
  c_deviceId : string;
  c_auditoryId : string;
  c_endTime : string
}.

(** Body of PUT /api/bookings/:id ([UpdateBookingSchema]) with [req.url]. *)
Record UpdateBooking := {
  u_url : string;
  u_deviceId : option string;
  u_auditoryId : option string;
  u_endTime : option string
}.

(** Body of PUT /api/devices/:id as received, before [UpdateDeviceSchema].

    The schemas of the device and auditory routes admit additional
    properties, and the handlers pass [req.body] whole to Prisma.  The
    bodies of these routes are modelled with the properties of their schema
    and with [id], the other scalar column of the table, which the schema
    does not check.  What a body can name besides are the relation fields
    of the Prisma models, which are declared in schema.prisma and are not
    among the sources: a body that names one is outside this model. *)
Record UpdateDevice := {
  ud_url : string;
  ud_name : option string;
  ud_id : option string
}.

(** Body of PUT /api/auditories/:id as received, before
    [UpdateAuditorySchema]. *)
Record UpdateAuditory := {
  ua_url : string;
  ua_name : option string;
  ua_capacity : option Z;
  ua_id : option string
}.

(** [reply.code(status).type('application/problem+json').send({...})] *)
Definition problem (st : Z) (ttl dtl url : string) : Outcome :=
  Sent {| code := st;
          body := ProblemBody {| p_type := "about:blank"; title := ttl;
                                 status := st; detail := dtl; instance := url;
                                 errorsText := None |} |}.

Definition ends_in_future : string := "Время окончания должно быть в будущем".

Definition busy_until : string := "Аудитория занята до ".

Definition booking_not_found : string := "Бронирование не найдено".

Section Handlers.

Context (host : Host).

(** *** [setErrorHandler] (app.ts, lines 77-89) *)

Definition statusCode (e : ThrownError) : option Z :=
  match e with
  | ValidationProblem _ => Some 400
  | _ => None
  end.

Definition message (e : ThrownError) : string :=
  match e with
  | ValidationProblem msg => msg
  | _ => prisma_message host e
  end.

Definition isValidation (e : ThrownError) : bool :=
  match e with
  | ValidationProblem _ => true
  | _ => false
  end.

Definition errorHandler (e : ThrownError) (url : string) : Reply :=
  let status := default 500 (statusCode e) in
  {| code := status;
     body := ProblemBody
       {| p_type := "about:blank";
          title := default "Error" (STATUS_CODES host status);
          status := status;
          detail := if bool_decide (message e = "") then "Unexpected error"
                    else message e;
          instance := url;
          errorsText := if isValidation e then Some (message e) else None |} |}.

(** What the client receives. *)
Definition respond (url : string) (o : Outcome) : Reply :=
  match o with
  | Sent r => r
  | Thrown e => errorHandler e url
  end.

(** *** POST /api/bookings (lines 436-473)

    [now] is the handler's [new Date()]; [newId] and [insertedAt] are the
    key and the [startTime] the store gives the row if it is inserted. *)
Definition createBooking (st : Store) (req : CreateBooking) (now : Z)
    (newId : string) (insertedAt : Z) : Store * Outcome :=
  let endAt := Date_parse host (c_endTime req) in
  if Date_le endAt now then
    (st, problem 400 "Bad Request" ends_in_future (c_url req))
  else
    match findFirst (λ _ r, bool_decide (auditoryId r = c_auditoryId req) &&
                            bool_decide (now < endTime r)) (bookings st) with
    | Some (_, activeBooking) =>
        (st, problem 409 "Conflict"
               (busy_until +:+ toLocaleTimeString host (endTime activeBooking))
               (c_url req))
    | None =>
        match booking_create st newId insertedAt
                (c_deviceId req) (c_auditoryId req) endAt with
        | inl e => (st, Thrown e)
        | inr (st', booking) =>
            (st', Sent {| code := 201; body := BookingBody booking |})
        end
    end.

(** *** PUT /api/bookings/:id (lines 513-578) *)

(** [newEndAt]: [undefined] unless [endTime] is truthy. *)
Definition newEndAt (req : UpdateBooking) : option (option Z) :=
  if truthy (u_endTime req) then Date_parse host <$> u_endTime req else None.

Definition update_data (req : UpdateBooking) : UpdateData :=
  {| data_deviceId := if truthy (u_deviceId req) then u_deviceId req else None;
     data_auditoryId :=
       if truthy (u_auditoryId req) then u_auditoryId req else None;
     data_endTime := newEndAt req |}.

(** [if (endTime) { newEndAt = new Date(endTime); if (newEndAt <= now) ... }] *)
Definition invalid_interval (req : UpdateBooking) (now : Z) : bool :=
  match newEndAt req with
  | Some d => Date_le d now
  | None => false
  end.

(** The [where] of the conflict query of an update. *)
Definition conflicting_with (i target : string) (now : Z)
    (k : string) (r : BookingRow) : bool :=
  bool_decide (auditoryId r = target) && bool_decide (now < endTime r) &&
  negb (bool_decide (k = i)).

Definition updateBooking (st : Store) (i : string) (req : UpdateBooking)
    (now : Z) : Store * Outcome :=
  if invalid_interval req now
  then (st, problem 400 "Bad Request" ends_in_future (u_url req))
  else
    match findUnique st i with
    | None => (st, problem 404 "Not Found" booking_not_found (u_url req))
    | Some booking =>
        let targetAuditoryId :=
          js_or (u_auditoryId req) (auditoryId (row booking)) in
        match
          if truthy (u_auditoryId req) || truthy (u_endTime req) then
            findFirst (conflicting_with i targetAuditoryId now) (bookings st)
          else None
        with
        | Some (_, conflicting) =>
            (st, problem 409 "Conflict"
                   (busy_until +:+ toLocaleTimeString host (endTime conflicting))
                   (u_url req))
        | None =>
            match booking_update st i (update_data req) with
            | inl e => (st, Thrown e)
            | inr (st', updated) =>
                (st', Sent {| code := 200; body := BookingBody updated |})
            end
        end
    end.

(** *** DELETE /api/bookings/:id (lines 608-612) *)
Definition deleteBooking (st : Store) (i : string) : Store * Outcome :=
  match booking_delete st i with
  | inl e => (st, Thrown e)
  | inr st' => (st', Sent {| code := 204; body := EmptyBody |})
  end.

(** *** PUT /api/devices/:id (lines 162-200)

    [UpdateDeviceSchema] runs first: [name], when present, has at least one
    character.  The text of a schema error comes from the validator. *)
Definition updateDevice (schema_msg : string) (st : Store) (i : string)
    (req : UpdateDevice) : Store * Outcome :=
  if bool_decide (ud_name req = Some "") then
    (st, Thrown (ValidationProblem
                   (if bool_decide (schema_msg = "") then "Ошибка валидации"
                    else schema_msg)))
  else
    match device_update st i (ud_id req) (ud_name req) with
    | inl e => (st, Thrown e)
    | inr (st', updated) =>
        (st', Sent {| code := 200;
                      body := DeviceBody (default i (ud_id req)) updated |})
    end.

(** *** PUT /api/auditories/:id (lines 297-335) *)
Definition updateAuditory (schema_msg : string) (st : Store) (i : string)
    (req : UpdateAuditory) : Store * Outcome :=
  if bool_decide (ua_name req = Some "") ||
     match ua_capacity req with
     | Some c => bool_decide (c < 1)
     | None => false
     end
  then
    (st, Thrown (ValidationProblem
                   (if bool_decide (schema_msg = "") then "Ошибка валидации"
                    else schema_msg)))
  else
    match auditory_update host st i (ua_id req) (ua_name req)
            (ua_capacity req) with
    | inl e => (st, Thrown e)
    | inr (st', updated) =>
        (st', Sent {| code := 200;
                      body := AuditoryBody (default i (ua_id req)) updated |})
    end.

End Handlers.

(** ** Sequences of booking operations *)

(** One request to a booking route, with the clock readings taken while it
    is served and, for a create, the key the store picks. *)
Inductive Op :=
  | Create (req : CreateBooking) (now : Z) (newId : string) (insertedAt : Z)
  | Update (i : string) (req : UpdateBooking) (now : Z)
  | Delete (i : string).

Definition step (host : Host) (st : Store) (op : Op) : Store * Outcome :=
  match op with
  | Create req now newId insertedAt =>
      createBooking host st req now newId insertedAt
  | Update i req now => updateBooking host st i req now
  | Delete i => deleteBooking st i
  end.

Definition run (host : Host) (ops : list Op) (st : Store) : Store :=
  fold_left (λ s op, (step host s op).1) ops st.

(** The status codes the clients receive, request after request. *)
Fixpoint codes (host : Host) (ops : list Op) (st : Store) : list Z :=
  match ops with
  | [] => []
  | op :: rest =>
      code (respond host "" (step host st op).2)
      :: codes host rest (step host st op).1
  end.

(** The clock after [ops], started at [t]. *)
Fixpoint clock (t : Z) (ops : list Op) : Z :=
  match ops with
  | [] => t
  | Create _ _ _ insertedAt :: rest => clock insertedAt rest
  | Update _ _ now :: rest => clock now rest
  | Delete _ :: rest => clock t rest
  end.

(** The readings of the clock never go back: each request samples [now]
    no earlier than the reading before it, and a row is stamped no earlier
    than the [now] of its request. *)
Fixpoint chronological (t : Z) (ops : list Op) : bool :=
  match ops with
  | [] => true
  | Create _ now _ insertedAt :: rest =>
      bool_decide (t ≤ now) && bool_decide (now ≤ insertedAt) &&
      chronological insertedAt rest
  | Update _ _ now :: rest => bool_decide (t ≤ now) && chronological now rest
  | Delete _ :: rest => chronological t rest
  end.

(** Every create asks for an end later than the instant its row is stamped. *)
Definition stamped_before_end (host : Host) (op : Op) : bool :=
  match op with
  | Create req _ _ insertedAt =>
      match Date_parse host (c_endTime req) with
      | Some e => bool_decide (insertedAt < e)
      | None => true
      end
  | _ => true
  end.

(** Whether [op], served on [st], inserts a row: a create answered 201. *)
Definition inserts (host : Host) (st : Store) (op : Op) : bool :=
  match op, (step host st op).2 with
  | Create _ _ _ _, Sent r => bool_decide (code r = 201)
  | _, _ => false
  end.

(** Every row that is inserted along [ops], served from [st] on, is
    stamped before the end its create asked for.  A create that is refused
    inserts no row and is under no condition. *)
Fixpoint rows_stamped_before_end (host : Host) (ops : list Op) (st : Store)
    : bool :=
  match ops with
  | [] => true
  | op :: rest =>
      (if inserts host st op then stamped_before_end host op else true) &&
      rows_stamped_before_end host rest (step host st op).1
  end.

(** The bookings of [aud] that are active at [now]. *)
Definition activeBookings (now : Z) (aud : string)
    (m : gmap string BookingRow) : list (string * BookingRow) :=
  filter (λ kr, auditoryId kr.2 = aud ∧ now < endTime kr.2) (map_to_list m).

(** ** A runtime to evaluate the handlers on

    [sample_host] agrees with Node on the four ISO strings below and on
    strings that are no date at all; times of day are rendered in UTC; the
    column "capacity" is a 32-bit INTEGER of PostgreSQL. *)
Definition sample_parse (s : string) : option Z :=
  if bool_decide (s = "2020-01-01T00:00:00.000Z") then Some 1577836800000
  else if bool_decide (s = "2030-01-01T00:00:00.000Z") then Some 1893456000000
  else if bool_decide (s = "2030-01-01T01:00:00.000Z") then Some 1893459600000
  else if bool_decide (s = "2030-01-01T02:00:00.000Z") then Some 1893463200000
  else None.

Definition sample_time (t : Z) : string :=
  if bool_decide (t = 1893456000000) then "00:00:00"
  else if bool_decide (t = 1893459600000) then "01:00:00"
  else if bool_decide (t = 1893463200000) then "02:00:00"
  else "??:??:??".

Definition sample_status (c : Z) : option string :=
  if bool_decide (c = 400) then Some "Bad Request"
  else if bool_decide (c = 404) then Some "Not Found"
  else if bool_decide (c = 409) then Some "Conflict"
  else if bool_decide (c = 500) then Some "Internal Server Error"
  else None.

Definition sample_host : Host :=
  {| Date_parse := sample_parse;
     toLocaleTimeString := sample_time;
     STATUS_CODES := sample_status;
     prisma_message := λ e,
       match e with
       | PrismaKnownRequestError c => "Invalid invocation: " +:+ c
       | _ => "Invalid value for argument"
       end;
     capacity_fits := λ c, bool_decide (-2147483648 ≤ c ≤ 2147483647) |}.

(** One device, two auditories, no booking. *)
Definition store0 : Store :=
  {| devices := {[ "d1" := {| name := "projector" |} ]};
     auditories := {[ "a1" := {| aud_name := "101"; capacity := 30 |};
                      "a2" := {| aud_name := "102"; capacity := 20 |} ]};
     bookings := ∅ |}.

Definition t2029 : Z := 1893455000000.

Definition post (aud endT : string) : CreateBooking :=
  {| c_url := "/api/bookings"; c_deviceId := "d1"; c_auditoryId := aud;
     c_endTime := endT |}.

Definition put (i : string) (dev aud endT : option string) : UpdateBooking :=
  {| u_url := "/api/bookings/" +:+ i; u_deviceId := dev; u_auditoryId := aud;
     u_endTime := endT |}.

(** [store0] after a booking of auditory a1 until 01:00, made at [t2029]
    and stamped 5 ms later. *)
Definition store1 : Store :=
  (createBooking sample_host store0 (post "a1" "2030-01-01T01:00:00.000Z")
     t2029 "b1" (t2029 + 5)).1.

(** [store1] one second after 01:00, when b1 is over, with a second
    booking b2 of a1, until 02:00. *)
Definition t0100 : Z := 1893459601000.

Definition store2 : Store :=
  (createBooking sample_host store1 (post "a1" "2030-01-01T02:00:00.000Z")
     t0100 "b2" (t0100 + 5)).1.

Definition row1 : BookingRow :=
  {| deviceId := "d1"; auditoryId := "a1"; startTime := t2029 + 5;
     endTime := 1893459600000 |}.

Definition row2 : BookingRow :=
  {| deviceId := "d1"; auditoryId := "a1"; startTime := t0100 + 5;
     endTime := 1893463200000 |}.

Definition device1 : string * Device := ("d1", {| name := "projector" |}).

Definition auditory1 : string * Auditory :=
  ("a1", {| aud_name := "101"; capacity := 30 |}).

Definition auditory2 : string * Auditory :=
  ("a2", {| aud_name := "102"; capacity := 20 |}).

(** A day of requests: b1 books a1 until 01:00; a second booking of a1 is
    refused; b1 gets another device; after 01:00 b2 books a1 until 02:00;
    b1 may not be prolonged to 02:00 any more; b1 is deleted. *)
Definition day : list Op :=
  [ Create (post "a1" "2030-01-01T01:00:00.000Z") t2029 "b1" (t2029 + 5);
    Create (post "a1" "2030-01-01T02:00:00.000Z") (t2029 + 10) "b2" (t2029 + 15);
    Update "b1" (put "b1" (Some "d1") None None) (t2029 + 20);
    Create (post "a1" "2030-01-01T02:00:00.000Z") t0100 "b2" (t0100 + 5);
    Update "b1" (put "b1" None None (Some "2030-01-01T02:00:00.000Z"))
      (t0100 + 10);
    Delete "b1" ].

(** [day], after a create that asks for an end in 2020 and is refused. *)
Definition day_after_refusal : list Op :=
  Create (post "a1" "2020-01-01T00:00:00.000Z") t2029 "b0" t2029 :: day.

(** A create of the last moment: sampled 2 ms before midnight, the end it
    asks for, and stamped by the store 3 ms after midnight. *)
Definition late : list Op :=
  [ Create (post "a1" "2030-01-01T00:00:00.000Z") (1893456000000 - 2) "b1"
      (1893456000000 + 3) ].

(** A patch with its empty strings taken out. *)
Definition drop_empty (o : option string) : option string :=
  if truthy o then o else None.

Definition without_empty (req : UpdateBooking) : UpdateBooking :=
  {| u_url := u_url req;
     u_deviceId := drop_empty (u_deviceId req);
     u_auditoryId := drop_empty (u_auditoryId req);
     u_endTime := drop_empty (u_endTime req) |}.

(** ** The other routes of the API *)

(** [device.create({ data })]; the key [newId] is [data.id] when there is
    one, else the store picks it. *)
Definition device_create (st : Store) (newId nm : string)
    : ThrownError + Store * Device :=
  if bool_decide (is_Some (devices st !! newId)) then
    inl (PrismaKnownRequestError "P2002")
  else
    inr (with_devices st (<[newId := {| name := nm |}]> (devices st)),
         {| name := nm |}).

(** [device.delete({ where: { id } })].  "Booking_deviceId_fkey" is
    [ON DELETE RESTRICT]: a device some booking refers to stays. *)
Definition device_delete (st : Store) (i : string) : ThrownError + Store :=
  match devices st !! i with
  | None => inl (PrismaKnownRequestError "P2025")
  | Some _ =>
      match findFirst (λ _ r, bool_decide (deviceId r = i)) (bookings st) with
      | Some _ => inl (PrismaKnownRequestError "P2003")
      | None => inr (with_devices st (delete i (devices st)))
      end
  end.

(** [auditory.create({ data })].  A capacity the column cannot hold is
    refused before the statement runs. *)
Definition auditory_create (host : Host) (st : Store) (newId nm : string)
    (cap : Z) : ThrownError + Store * Auditory :=
  if negb (capacity_fits host cap) then
    inl (PrismaKnownRequestError "P2020")
  else if bool_decide (is_Some (auditories st !! newId)) then
    inl (PrismaKnownRequestError "P2002")
  else
    let a := {| aud_name := nm; capacity := cap |} in
    inr (with_auditories st (<[newId := a]> (auditories st)), a).

(** "Booking_auditoryId_fkey" is [ON DELETE RESTRICT] as well. *)
Definition auditory_delete (st : Store) (i : string) : ThrownError + Store :=
  match auditories st !! i with
  | None => inl (PrismaKnownRequestError "P2025")
  | Some _ =>
      match findFirst (λ _ r, bool_decide (auditoryId r = i)) (bookings st) with
      | Some _ => inl (PrismaKnownRequestError "P2003")
      | None => inr (with_auditories st (delete i (auditories st)))
      end
  end.

(** [orderBy: { startTime: 'desc' }]: the later start comes first. *)
Definition later_first (a b : string * BookingRow) : Prop :=
  startTime b.2 ≤ startTime a.2.

#[global] Instance later_first_dec a b : Decision (later_first a b).
Proof. unfold later_first. apply _. Defined.

(** [booking.findMany({ include, orderBy })] *)
Definition booking_findMany (st : Store) : list Booking :=
  (λ kr, include st kr.1 kr.2)
    <$> merge_sort later_first (map_to_list (bookings st)).

(** [schemaErrorFormatter] (lines 29-32); [joined] is the text of the
    validator's errors, joined with "; ". *)
Definition schemaErrorFormatter (joined : string) : ThrownError :=
  ValidationProblem
    (if bool_decide (joined = "") then "Ошибка валидации" else joined).

(** Body of POST /api/devices as received, before [CreateDeviceSchema]:
    [name] is [None] when the property is missing, and [id] is the
    additional property that is a column of the table (see
    [UpdateDevice]). *)
Record CreateDevice := {
  cd_url : string;
  cd_name : option string;
  cd_id : option string
}.

(** Body of POST /api/auditories as received, before
    [CreateAuditorySchema]. *)
Record CreateAuditory := {
  ca_url : string;
  ca_name : option string;
  ca_capacity : option Z;
  ca_id : option string
}.

(** *** GET /api/devices, /api/auditories, /api/bookings *)
Definition listDevices (st : Store) : list (string * Device) :=
  map_to_list (devices st).

Definition listAuditories (st : Store) : list (string * Auditory) :=
  map_to_list (auditories st).

Definition listBookings (st : Store) : list Booking := booking_findMany st.

(** *** POST /api/devices (lines 128-160) *)
Definition createDevice (schema_msg : string) (st : Store)
    (req : CreateDevice) (newId : string) : Store * Outcome :=
  match cd_name req with
  | Some nm =>
      if bool_decide (nm = "") then (st, Thrown (schemaErrorFormatter schema_msg))
      else
        match device_create st (default newId (cd_id req)) nm with
        | inl e => (st, Thrown e)
        | inr (st', device) =>
            (st', Sent {| code := 201;
                          body := DeviceBody (default newId (cd_id req))
                                    device |})
        end
  | None => (st, Thrown (schemaErrorFormatter schema_msg))
  end.

(** *** DELETE /api/devices/:id (lines 202-234) *)
Definition deleteDevice (st : Store) (i : string) : Store * Outcome :=
  match device_delete st i with
  | inl e => (st, Thrown e)
  | inr st' => (st', Sent {| code := 204; body := EmptyBody |})
  end.

(** *** POST /api/auditories (lines 263-295) *)
Definition createAuditory (host : Host) (schema_msg : string) (st : Store)
    (req : CreateAuditory) (newId : string) : Store * Outcome :=
  match ca_name req, ca_capacity req with
  | Some nm, Some cap =>
      if bool_decide (nm = "") || bool_decide (cap < 1) then
        (st, Thrown (schemaErrorFormatter schema_msg))
      else
        match auditory_create host st (default newId (ca_id req)) nm cap with
        | inl e => (st, Thrown e)
        | inr (st', auditory) =>
            (st', Sent {| code := 201;
                          body := AuditoryBody (default newId (ca_id req))
                                    auditory |})
        end
  | _, _ => (st, Thrown (schemaErrorFormatter schema_msg))
  end.

(** *** DELETE /api/auditories/:id (lines 337-369) *)
Definition deleteAuditory (st : Store) (i : string) : Store * Outcome :=
  match auditory_delete st i with
  | inl e => (st, Thrown e)
  | inr st' => (st', Sent {| code := 204; body := EmptyBody |})
  end.

(** *** [setNotFoundHandler] (lines 91-99) *)
Definition notFoundHandler (method url : string) : Reply :=
  {| code := 404;
     body := ProblemBody
       {| p_type := "about:blank"; title := "Not Found"; status := 404;
          detail := "Route " +:+ method +:+ " " +:+ url +:+ " not found";
          instance := url; errorsText := None |} |}.

(** ** POST /api/bookings before the problem documents

    The version of the handler in app.ts (lines 856-884) that answers
    [{ detail }] where the present one answers a problem document. *)
Module Earlier.

Inductive Answer :=
  | Detail (code : Z) (detail : string)
  | Created (code : Z) (b : Booking)
  | Escaped (e : ThrownError).

Definition createBooking (host : Host) (st : Store) (req : CreateBooking)
    (now : Z) (newId : string) (insertedAt : Z) : Store * Answer :=
  let endAt := Date_parse host (c_endTime req) in
  if Date_le endAt now then (st, Detail 400 ends_in_future)
  else
    match findFirst (λ _ r, bool_decide (auditoryId r = c_auditoryId req) &&
                            bool_decide (now < endTime r)) (bookings st) with
    | Some (_, activeBooking) =>
        (st, Detail 409
               (busy_until +:+ toLocaleTimeString host (endTime activeBooking)))
    | None =>
        match booking_create st newId insertedAt
                (c_deviceId req) (c_auditoryId req) endAt with
        | inl e => (st, Escaped e)
        | inr (st', booking) => (st', Created 201 booking)
        end
    end.

(** The present outcome [o] says what the earlier one [o0] said. *)
Definition same_answer (o0 : Answer) (o : Outcome) : Prop :=
  match o0, o with
  | Detail c d, Sent r =>
      code r = c ∧ ∃ p, body r = ProblemBody p ∧ status p = c ∧ detail p = d
  | Created c b, Sent r => code r = c ∧ body r = BookingBody b
  | Escaped e0, Thrown e => e0 = e
  | _, _ => False
  end.

End Earlier.

(** ** Any request to the API *)

Inductive Request :=
  | Bookings (op : Op)
  | PostDevice (schema_msg : string) (req : CreateDevice) (newId : string)
  | PutDevice (schema_msg : string) (i : string) (req : UpdateDevice)
  | DeleteDevice (i : string)
  | PostAuditory (schema_msg : string) (req : CreateAuditory) (newId : string)
  | PutAuditory (schema_msg : string) (i : string) (req : UpdateAuditory)
  | DeleteAuditory (i : string)
  | Unrouted (method url : string).

(** [req.url] *)
Definition request_url (rq : Request) : string :=
  match rq with
  | Bookings (Create req _ _ _) => c_url req
  | Bookings (Update _ req _) => u_url req
  | Bookings (Delete i) => "/api/bookings/" +:+ i
  | PostDevice _ req _ => cd_url req
  | PutDevice _ _ req => ud_url req
  | DeleteDevice i => "/api/devices/" +:+ i
  | PostAuditory _ req _ => ca_url req
  | PutAuditory _ _ req => ua_url req
  | DeleteAuditory i => "/api/auditories/" +:+ i
  | Unrouted _ url => url
  end.

Definition serve (host : Host) (st : Store) (rq : Request) : Store * Outcome :=
  match rq with
  | Bookings op => step host st op
  | PostDevice msg req newId => createDevice msg st req newId
  | PutDevice msg i req => updateDevice msg st i req
  | DeleteDevice i => deleteDevice st i
  | PostAuditory msg req newId => createAuditory host msg st req newId
  | PutAuditory msg i req => updateAuditory host msg st i req
  | DeleteAuditory i => deleteAuditory st i
  | Unrouted method url => (st, Sent (notFoundHandler method url))
  end.

(** The reply the client receives. *)
Definition reply_to (host : Host) (st : Store) (rq : Request) : Reply :=
  respond host (request_url rq) (serve host st rq).2.

Definition serve_all (host : Host) (rqs : list Request) (st : Store) : Store :=
  fold_left (λ s rq, (serve host s rq).1) rqs st.

(** The status codes the clients receive, request after request. *)
Fixpoint statuses (host : Host) (rqs : list Request) (st : Store) : list Z :=
  match rqs with
  | [] => []
  | rq :: rest =>
      code (reply_to host st rq) :: statuses host rest (serve host st rq).1
  end.

(** The requests to the booking routes among [rqs], in their order. *)
Definition booking_ops (rqs : list Request) : list Op :=
  omap (λ rq, match rq with Bookings op => Some op | _ => None end) rqs.

(** The conflict query of an update, when the handler runs it. *)
Definition no_conflict (st : Store) (i : string) (req : UpdateBooking)
    (now : Z) (old : BookingRow) : Prop :=
  (if truthy (u_auditoryId req) || truthy (u_endTime req)
   then findFirst
          (conflicting_with i (js_or (u_auditoryId req) (auditoryId old)) now)
          (bookings st)
   else None) = None.

(** The two shapes of a reply: a success, or a problem document that
    repeats the status of the reply and names the request. *)
Definition success_reply (r : Reply) : Prop :=
  code r ∈ [200; 201; 204] ∧ ∀ p, body r ≠ ProblemBody p.

Definition problem_reply (url : string) (r : Reply) : Prop :=
  ∃ p, body r = ProblemBody p ∧
       status p = code r ∧
       code r ∈ [400; 404; 409; 500] ∧
       p_type p = "about:blank" ∧
       instance p = url ∧
       detail p ≠ "".

(** Every booking refers to a device and to an auditory of the store. *)
Definition referential_integrity (st : Store) : Prop :=
  map_Forall (λ _ r, is_Some (devices st !! deviceId r) ∧
                     is_Some (auditories st !! auditoryId r)) (bookings st).

(** What the schemas of types.ts let into the tables. *)
Definition validated (st : Store) : Prop :=
  map_Forall (λ _ d, name d ≠ "") (devices st) ∧
  map_Forall (λ _ a, aud_name a ≠ "" ∧ 1 ≤ capacity a) (auditories st).

Definition empty_store : Store :=
  {| devices := ∅; auditories := ∅; bookings := ∅ |}.

(** A session on an empty database: a device and two auditories are
    made, a1 is booked, the device and a1 cannot be deleted, a2 can. *)
Definition session : list Request :=
  [ PostDevice "" {| cd_url := "/api/devices"; cd_name := Some "projector";
                     cd_id := None |} "d1";
    PostAuditory "" {| ca_url := "/api/auditories"; ca_name := Some "101";
                       ca_capacity := Some 30; ca_id := None |} "a1";
    PostAuditory "" {| ca_url := "/api/auditories"; ca_name := Some "102";
                       ca_capacity := Some 20; ca_id := None |} "a2";
    PostAuditory "must NOT have fewer than 1 characters"
      {| ca_url := "/api/auditories"; ca_name := Some "";
         ca_capacity := Some 0; ca_id := None |} "a3";
    Bookings (Create (post "a1" "2030-01-01T01:00:00.000Z") t2029 "b1"
                (t2029 + 5));
    DeleteDevice "d1";
    DeleteAuditory "a1";
    DeleteAuditory "a2";
    Unrouted "GET" "/api/users" ].

(** PUT /api/devices/d1 with the body [{ "id": "d9" }], and
    PUT /api/auditories/a1 with the body [{ "id": "a9" }]: the schemas let
    both through. *)
Definition rename_d1 : Request :=
  PutDevice "" "d1"
    {| ud_url := "/api/devices/d1"; ud_name := None; ud_id := Some "d9" |}.

Definition rename_a1 : Request :=
  PutAuditory "" "a1"
    {| ua_url := "/api/auditories/a1"; ua_name := None; ua_capacity := None;
       ua_id := Some "a9" |}.

(** [session], then: a1 becomes a9 and its booking b1 follows, so that a9
    is busy and a1 is no more; an auditory with the key of a2 chosen by the
    client and with a capacity of 2^31. *)
Definition session_renaming : list Request :=
  session ++
  [ rename_a1;
    Bookings (Create (post "a9" "2030-01-01T02:00:00.000Z") (t2029 + 20) "b2"
                (t2029 + 25));
    Bookings (Create (post "a1" "2030-01-01T02:00:00.000Z") (t2029 + 30) "b3"
                (t2029 + 35));
    PostAuditory "" {| ca_url := "/api/auditories"; ca_name := Some "102";
                       ca_capacity := Some 2147483648; ca_id := Some "a2" |}
      "a4";
    PostAuditory "" {| ca_url := "/api/auditories"; ca_name := Some "102";
                       ca_capacity := Some 20; ca_id := Some "a2" |} "a4" ].

(** ** The two properties of the table that the routes are to keep *)

(** No two bookings of one auditory end after [t]. *)
Definition one_active (t : Z) (m : gmap string BookingRow) : Prop :=
  ∀ i j ri rj,
    m !! i = Some ri → m !! j = Some rj →
    auditoryId ri = auditoryId rj →
    t < endTime ri → t < endTime rj → i = j.

(** Every booking starts before it ends, and has started by [t]. *)
Definition started_before_end (t : Z) (m : gmap string BookingRow) : Prop :=
  ∀ i r, m !! i = Some r → startTime r < endTime r ∧ startTime r ≤ t.

(** ** Queries *)

Lemma findFirst_Some (P : string → BookingRow → bool)
    (m : gmap string BookingRow) k r :
  findFirst P m = Some (k, r) → m !! k = Some r ∧ P k r = true.
Proof.
  unfold findFirst. intros H. apply find_some in H as [Hin HP].
  split; [|done]. apply elem_of_map_to_list. by apply list_elem_of_In.
Qed.

Lemma findFirst_None (P : string → BookingRow → bool)
    (m : gmap string BookingRow) k r :
  findFirst P m = None → m !! k = Some r → P k r = false.
Proof.
  unfold findFirst. intros H Hk.
  apply (find_none _ _ H (k, r)).
  by apply list_elem_of_In, elem_of_map_to_list.
Qed.

Lemma findFirst_found (P : string → BookingRow → bool)
    (m : gmap string BookingRow) k r :
  m !! k = Some r → P k r = true → ∃ kr, findFirst P m = Some kr.
Proof.
  intros Hk HP. destruct (findFirst P m) as [kr|] eqn:E; [by exists kr|].
  rewrite (findFirst_None _ _ _ _ E Hk) in HP. discriminate.
Qed.

Lemma with_bookings_id st : with_bookings st (bookings st) = st.
Proof. by destruct st. Qed.

(** The errors of Prisma carry no status code: the handler answers 500. *)
Lemma booking_create_error st newId insertedAt dev aud endAt e :
  booking_create st newId insertedAt dev aud endAt = inl e → statusCode e = None.
Proof.
  unfold booking_create. intros H.
  repeat case_match; simplify_eq; done.
Qed.

Lemma booking_update_error st i d e :
  booking_update st i d = inl e → statusCode e = None.
Proof.
  unfold booking_update. intros H.
  repeat case_match; simplify_eq; done.
Qed.

Section Properties.

Context (host : Host).

(** ** Create *)

(** C3: a create whose [endTime] is at or before the [now] it samples is
    answered 400 "Bad Request" with the detail that the end must be in
    the future (the spec's InvalidInterval), and the store is as before. *)
Theorem createBooking_past_end st req now newId insertedAt e :
  Date_parse host (c_endTime req) = Some e →
  e ≤ now →
  (createBooking host st req now newId insertedAt).1 = st ∧
  respond host (c_url req) (createBooking host st req now newId insertedAt).2
  = {| code := 400;
       body := ProblemBody {| p_type := "about:blank"; title := "Bad Request";
                              status := 400; detail := ends_in_future;
                              instance := c_url req; errorsText := None |} |}.
Proof.
  intros Hparse Hle. unfold createBooking.
  rewrite Hparse. simpl. rewrite bool_decide_eq_true_2 by done. done.
Qed.

(** C4 (amended): a create whose [endTime] is not at or before [now], for
    an auditory with a booking that ends after [now], is answered 409
    "Conflict"; the detail is the busy text followed by the time of day at
    which such a booking of that auditory ends; the store is as before. *)
Theorem createBooking_room_busy st req now newId insertedAt k r :
  bookings st !! k = Some r →
  auditoryId r = c_auditoryId req →
  now < endTime r →
  Date_le (Date_parse host (c_endTime req)) now = false →
  ∃ k' busy,
    bookings st !! k' = Some busy ∧
    auditoryId busy = c_auditoryId req ∧
    now < endTime busy ∧
    (createBooking host st req now newId insertedAt).1 = st ∧
    respond host (c_url req) (createBooking host st req now newId insertedAt).2
    = {| code := 409;
         body := ProblemBody
           {| p_type := "about:blank"; title := "Conflict"; status := 409;
              detail := busy_until +:+ toLocaleTimeString host (endTime busy);
              instance := c_url req; errorsText := None |} |}.
Proof.
  intros Hk Haud Hact Hle. unfold createBooking. rewrite Hle.
  edestruct (findFirst_found
    (λ _ r, bool_decide (auditoryId r = c_auditoryId req) &&
            bool_decide (now < endTime r)) (bookings st) k r) as [[k' busy] E];
    [done | by rewrite !bool_decide_eq_true_2 |].
  rewrite E. apply findFirst_Some in E as [Hk' HP].
  apply andb_true_iff in HP as [?%bool_decide_eq_true ?%bool_decide_eq_true].
  by exists k', busy.
Qed.

(** What a create answered 201 has done. *)
Lemma createBooking_inserted st req now newId insertedAt st' reply :
  createBooking host st req now newId insertedAt = (st', Sent reply) →
  code reply = 201 →
  ∃ e dev aud,
    Date_parse host (c_endTime req) = Some e ∧
    now < e ∧
    devices st !! c_deviceId req = Some dev ∧
    auditories st !! c_auditoryId req = Some aud ∧
    bookings st !! newId = None ∧
    let r := {| deviceId := c_deviceId req; auditoryId := c_auditoryId req;
                startTime := insertedAt; endTime := e |} in
    st' = with_bookings st (<[newId := r]> (bookings st)) ∧
    body reply = BookingBody (include st' newId r).
Proof.
  unfold createBooking, problem. intros H Hcode.
  destruct (Date_le _ now) eqn:Hle; [by simplify_eq|].
  destruct (findFirst _ _) as [[? ?]|]; [by simplify_eq|].
  unfold booking_create in H.
  destruct (Date_parse host (c_endTime req)) as [e|]; [|by simplify_eq].
  case_bool_decide as Hid; [by simplify_eq|].
  destruct (bool_decide (is_Some (devices st !! c_deviceId req))) eqn:Hd;
    [|by simplify_eq].
  destruct (bool_decide (is_Some (auditories st !! c_auditoryId req))) eqn:Ha;
    [|by simplify_eq].
  apply bool_decide_eq_true in Hd as [dev Hd].
  apply bool_decide_eq_true in Ha as [aud Ha].
  simpl in H, Hle. apply bool_decide_eq_false in Hle.
  simplify_eq. exists e, dev, aud.
  split_and!; try done; [lia | by apply eq_None_not_Some].
Qed.

(** C2 (amended): a create answered 201 has inserted one row under the key
    the store chose, with the device, the auditory and the parsed end of
    the request and with [startTime] the instant at which the store stamped
    the row (the handler passes no [startTime]); the reply is that row with
    its Device and its Auditory expanded. *)
Theorem createBooking_created st req now newId insertedAt st' reply :
  createBooking host st req now newId insertedAt = (st', Sent reply) →
  code reply = 201 →
  ∃ e dev aud,
    Date_parse host (c_endTime req) = Some e ∧
    devices st !! c_deviceId req = Some dev ∧
    auditories st !! c_auditoryId req = Some aud ∧
    bookings st !! newId = None ∧
    let r := {| deviceId := c_deviceId req; auditoryId := c_auditoryId req;
                startTime := insertedAt; endTime := e |} in
    st' = with_bookings st (<[newId := r]> (bookings st)) ∧
    body reply = BookingBody {| id := newId; row := r;
                               device := Some (c_deviceId req, dev);
                               auditory := Some (c_auditoryId req, aud) |}.
Proof.
  intros H Hcode.
  destruct (createBooking_inserted _ _ _ _ _ _ _ H Hcode)
    as (e & dev & aud & Hparse & _ & Hd & Ha & Hid & Hst & Hbody).
  exists e, dev, aud. split_and!; try done.
  rewrite Hbody, Hst. unfold include. simpl. by rewrite Hd, Ha.
Qed.

(** ** Update *)

(** C6 (amended): an update of a key that is not in the table leaves the
    store as it is; unless it carries a non-empty [endTime] at or before
    [now] (that is answered 400 first), it is answered 404 "Not Found". *)
Theorem updateBooking_not_found st i req now :
  bookings st !! i = None →
  (updateBooking host st i req now).1 = st ∧
  (invalid_interval host req now = false →
   respond host (u_url req) (updateBooking host st i req now).2
   = {| code := 404;
        body := ProblemBody {| p_type := "about:blank"; title := "Not Found";
                               status := 404; detail := booking_not_found;
                               instance := u_url req; errorsText := None |} |}).
Proof.
  intros Hi. unfold updateBooking, findUnique. rewrite Hi. simpl.
  destruct (invalid_interval host req now); [done|]. by split.
Qed.

(** C5 (amended): for an update of an existing booking that passes the
    check of its interval: when [auditoryId] or [endTime] is a non-empty
    string, the answer is 409 exactly when some other booking of the
    effective auditory (the non-empty [auditoryId] of the patch, else the
    one of the booking) ends after [now]; when neither is a non-empty
    string, as with a patch of [deviceId] alone, the answer is never 409. *)
Theorem updateBooking_conflict_check st i req now :
  (∀ booking,
     bookings st !! i = Some booking →
     invalid_interval host req now = false →
     truthy (u_auditoryId req) || truthy (u_endTime req) = true →
     code (respond host (u_url req) (updateBooking host st i req now).2) = 409
     ↔ ∃ k r, k ≠ i ∧ bookings st !! k = Some r ∧
              auditoryId r = js_or (u_auditoryId req) (auditoryId booking) ∧
              now < endTime r) ∧
  (truthy (u_auditoryId req) || truthy (u_endTime req) = false →
   code (respond host (u_url req) (updateBooking host st i req now).2) ≠ 409).
Proof.
  split.
  - intros booking Hi Hint Hsup. unfold updateBooking, findUnique.
    rewrite Hint, Hi, Hsup. simpl.
    destruct (findFirst _ _) as [[k r]|] eqn:E.
    + split; [|done]. intros _.
      apply findFirst_Some in E as [Hk HP]. unfold conflicting_with in HP.
      apply andb_true_iff in HP as [HP Hne].
      apply andb_true_iff in HP as [?%bool_decide_eq_true ?%bool_decide_eq_true].
      apply negb_true_iff, bool_decide_eq_false in Hne.
      by exists k, r.
    + split.
      * intros Hc. exfalso.
        destruct (booking_update _ _ _) as [e|[st' b]] eqn:U; simpl in Hc.
        -- by rewrite (booking_update_error _ _ _ _ U) in Hc.
        -- done.
      * intros (k & r & Hne & Hk & Haud & Hact). exfalso.
        pose proof (findFirst_None _ _ _ _ E Hk) as HP.
        unfold conflicting_with in HP.
        rewrite !bool_decide_eq_true_2, bool_decide_eq_false_2 in HP by done.
        discriminate.
  - intros Hsup. unfold updateBooking, findUnique.
    destruct (invalid_interval host req now); [done|].
    destruct (bookings st !! i) as [booking|]; simpl; [|done].
    rewrite Hsup.
    destruct (booking_update _ _ _) as [e|[st' b]] eqn:U; simpl.
    + by rewrite (booking_update_error _ _ _ _ U).
    + done.
Qed.

(** C8: an update answered 200 rewrites the row under its key and nothing
    else: [startTime] stays, a field the patch does not supply stays, a
    field that differs from before holds the value the patch supplied
    (for [endTime], its parsed instant), every other booking stays, and so
    do the devices and the auditories. *)
Theorem updateBooking_frame st i req now st' reply :
  updateBooking host st i req now = (st', Sent reply) →
  code reply = 200 →
  ∃ old new,
    bookings st !! i = Some old ∧
    bookings st' !! i = Some new ∧
    startTime new = startTime old ∧
    (u_deviceId req = None → deviceId new = deviceId old) ∧
    (u_auditoryId req = None → auditoryId new = auditoryId old) ∧
    (u_endTime req = None → endTime new = endTime old) ∧
    (deviceId new ≠ deviceId old → u_deviceId req = Some (deviceId new)) ∧
    (auditoryId new ≠ auditoryId old →
     u_auditoryId req = Some (auditoryId new)) ∧
    (endTime new ≠ endTime old →
     Date_parse host <$> u_endTime req = Some (Some (endTime new))) ∧
    (∀ j, j ≠ i → bookings st' !! j = bookings st !! j) ∧
    devices st' = devices st ∧
    auditories st' = auditories st.
Proof.
  unfold updateBooking, findUnique, problem. intros H Hcode.
  destruct (invalid_interval host req now); [by simplify_eq|].
  destruct (bookings st !! i) as [old|] eqn:Hi; simpl in H; [|by simplify_eq].
  destruct (if truthy (u_auditoryId req) || truthy (u_endTime req)
            then findFirst _ _ else None) as [[? ?]|]; [by simplify_eq|].
  unfold booking_update in H. rewrite Hi in H.
  assert (st' = with_bookings st
                  (<[i := apply_data (update_data host req) old]> (bookings st)))
    as ->.
  { repeat case_match; simplify_eq; done. }
  exists old, (apply_data (update_data host req) old).
  simpl. rewrite lookup_insert_eq.
  unfold apply_data, update_data, newEndAt; simpl.
  split_and!; try done.
  - by intros ->.
  - by intros ->.
  - by intros ->.
  - destruct (u_deviceId req) as [s|]; simpl; [|done].
    case_bool_decide; simpl; [done|]. by intros _.
  - destruct (u_auditoryId req) as [s|]; simpl; [|done].
    case_bool_decide; simpl; [done|]. by intros _.
  - destruct (truthy (u_endTime req)); [|done].
    destruct (u_endTime req) as [s|]; simpl; [|done].
    by destruct (Date_parse host s).
  - intros j Hne. by rewrite lookup_insert_ne.
Qed.

Lemma truthy_drop_empty o : truthy (drop_empty o) = truthy o.
Proof. unfold drop_empty. by destruct (truthy o) eqn:E. Qed.

Lemma js_or_drop_empty o d : js_or (drop_empty o) d = js_or o d.
Proof.
  unfold drop_empty, truthy. destruct o as [s|]; [|done].
  destruct (bool_decide (s = "")) eqn:E; simpl; by rewrite ?E.
Qed.

Lemma apply_no_data r :
  apply_data {| data_deviceId := None; data_auditoryId := None;
                data_endTime := None |} r = r.
Proof. by destruct r. Qed.

(** C10: an empty string in a patch is as good as absent: the update does
    what it does for the patch without it (no check of the interval for an
    empty [endTime], no conflict query on its account, no write of the
    field); and on an existing booking a patch that supplies nothing but
    empty strings is answered 200 with the booking, the store as before. *)
Theorem updateBooking_empty_string st i req now :
  updateBooking host st i req now
  = updateBooking host st i (without_empty req) now ∧
  (∀ booking,
     bookings st !! i = Some booking →
     truthy (u_deviceId req) = false →
     truthy (u_auditoryId req) = false →
     truthy (u_endTime req) = false →
     updateBooking host st i req now
     = (st, Sent {| code := 200; body := BookingBody (include st i booking) |})).
Proof.
  split.
  - unfold updateBooking, invalid_interval, update_data, newEndAt, without_empty.
    cbn [u_url u_deviceId u_auditoryId u_endTime].
    rewrite !truthy_drop_empty.
    destruct (findUnique st i) as [booking|].
    + rewrite js_or_drop_empty. unfold drop_empty.
      by destruct (truthy (u_deviceId req)), (truthy (u_auditoryId req)),
        (truthy (u_endTime req)).
    + unfold drop_empty. by destruct (truthy (u_endTime req)).
  - intros booking Hi Hd Ha He.
    unfold updateBooking, invalid_interval, update_data, newEndAt, findUnique.
    rewrite Hd, Ha, He, Hi. simpl.
    unfold booking_update. simpl. rewrite Hi. simpl.
    rewrite apply_no_data, insert_id by done.
    by rewrite with_bookings_id.
Qed.

(** ** What one request does to the table *)

Lemma createBooking_effect st req now newId insertedAt :
  (createBooking host st req now newId insertedAt).1 = st ∨
  ∃ e,
    Date_parse host (c_endTime req) = Some e ∧
    now < e ∧
    findFirst (λ _ r, bool_decide (auditoryId r = c_auditoryId req) &&
                      bool_decide (now < endTime r)) (bookings st) = None ∧
    bookings st !! newId = None ∧
    (createBooking host st req now newId insertedAt).1
    = with_bookings st
        (<[newId := {| deviceId := c_deviceId req;
                       auditoryId := c_auditoryId req;
                       startTime := insertedAt; endTime := e |}]> (bookings st)).
Proof.
  unfold createBooking.
  destruct (Date_le _ now) eqn:Hle; [by left|].
  destruct (findFirst _ _) as [[? ?]|] eqn:E; [by left|].
  unfold booking_create.
  destruct (Date_parse host (c_endTime req)) as [e|]; [|by left].
  case_bool_decide as Hid; [by left|].
  destruct (_ && _); [|by left].
  right. exists e. simpl in Hle. apply bool_decide_eq_false in Hle.
  split_and!; [done | lia | done | by apply eq_None_not_Some | done].
Qed.

Lemma updateBooking_effect st i req now :
  (updateBooking host st i req now).1 = st ∨
  ∃ old,
    bookings st !! i = Some old ∧
    invalid_interval host req now = false ∧
    (truthy (u_auditoryId req) || truthy (u_endTime req) = true →
     findFirst (conflicting_with i (js_or (u_auditoryId req) (auditoryId old)) now)
       (bookings st) = None) ∧
    newEndAt host req ≠ Some None ∧
    (updateBooking host st i req now).1
    = with_bookings st
        (<[i := apply_data (update_data host req) old]> (bookings st)).
Proof.
  unfold updateBooking, findUnique.
  destruct (invalid_interval host req now) eqn:Hint; [by left|].
  destruct (bookings st !! i) as [old|] eqn:Hi; simpl; [|by left].
  destruct (truthy (u_auditoryId req) || truthy (u_endTime req)) eqn:Hsup.
  - destruct (findFirst _ _) as [[? ?]|] eqn:E; [by left|].
    unfold booking_update. rewrite Hi. simpl.
    destruct (newEndAt host req) as [[e|]|] eqn:Hn; [| by left |];
      (destruct (references_ok st _); [|by left]);
      right; exists old; by split_and!.
  - unfold booking_update. rewrite Hi. simpl.
    destruct (newEndAt host req) as [[e|]|] eqn:Hn; [| by left |];
      (destruct (references_ok st _); [|by left]);
      right; exists old; by split_and!.
Qed.

Lemma deleteBooking_effect st i :
  (deleteBooking st i).1 = st ∨
  (deleteBooking st i).1 = with_bookings st (delete i (bookings st)).
Proof.
  unfold deleteBooking, booking_delete.
  destruct (bookings st !! i); [by right | by left].
Qed.

Lemma auditoryId_updated req old :
  auditoryId (apply_data (update_data host req) old)
  = js_or (u_auditoryId req) (auditoryId old).
Proof.
  unfold apply_data, update_data, truthy, js_or. simpl.
  destruct (u_auditoryId req) as [s|]; [|done]. by case_bool_decide.
Qed.

(** What the interval check of an update leaves for the new end. *)
Lemma endTime_updated req old now :
  invalid_interval host req now = false →
  newEndAt host req ≠ Some None →
  (truthy (u_endTime req) = false ∧
   endTime (apply_data (update_data host req) old) = endTime old) ∨
  (truthy (u_endTime req) = true ∧
   now < endTime (apply_data (update_data host req) old)).
Proof.
  unfold invalid_interval, apply_data, update_data, newEndAt. simpl.
  destruct (u_endTime req) as [s|]; simpl; [|by left].
  destruct (negb (bool_decide (s = ""))); simpl; [|by left].
  destruct (Date_parse host s) as [e|]; simpl; [|done].
  intros Hle%bool_decide_eq_false _. right. split; [done | lia].
Qed.

(** ** One active booking for an auditory *)

Lemma one_active_mono t t' (m : gmap string BookingRow) :
  t ≤ t' → one_active t m → one_active t' m.
Proof.
  intros Hle Hinv i j ri rj Hi Hj Haud Hri Hrj.
  eapply Hinv; eauto; lia.
Qed.

Lemma one_active_insert t (m : gmap string BookingRow) k r :
  one_active t (delete k m) →
  (∀ j rj, j ≠ k → m !! j = Some rj →
           auditoryId rj = auditoryId r → t < endTime rj → t < endTime r →
           False) →
  one_active t (<[k := r]> m).
Proof.
  intros Hinv Hfree i j ri rj Hi Hj Haud Hri Hrj.
  apply lookup_insert_Some in Hi as [[-> ->]|[Hik Hi]];
    apply lookup_insert_Some in Hj as [[-> ->]|[Hjk Hj]].
  - done.
  - exfalso. eapply (Hfree j rj); eauto.
  - exfalso. eapply (Hfree i ri); eauto.
  - eapply (Hinv i j ri rj); eauto; by rewrite lookup_delete_ne.
Qed.

Lemma one_active_delete t (m : gmap string BookingRow) k :
  one_active t m → one_active t (delete k m).
Proof.
  intros Hinv i j ri rj Hi%lookup_delete_Some Hj%lookup_delete_Some.
  destruct Hi, Hj. eapply Hinv; eauto.
Qed.

Lemma createBooking_one_active st req now newId insertedAt :
  one_active now (bookings st) →
  one_active now (bookings (createBooking host st req now newId insertedAt).1).
Proof.
  intros Hinv.
  destruct (createBooking_effect st req now newId insertedAt)
    as [->|(e & _ & _ & Hfree & _ & ->)]; [done|].
  simpl. apply one_active_insert; [by apply one_active_delete|].
  simpl. intros j rj _ Hj Haud Hact _.
  pose proof (findFirst_None _ _ _ _ Hfree Hj) as HP. simpl in HP.
  rewrite !bool_decide_eq_true_2 in HP by done. discriminate.
Qed.

Lemma updateBooking_one_active st i req now :
  one_active now (bookings st) →
  one_active now (bookings (updateBooking host st i req now).1).
Proof.
  intros Hinv.
  destruct (updateBooking_effect st i req now)
    as [->|(old & Hi & Hint & Hfree & Hend & ->)]; [done|].
  simpl. apply one_active_insert; [by apply one_active_delete|].
  intros j rj Hne Hj Haud Hact Hnew.
  rewrite auditoryId_updated in Haud.
  destruct (truthy (u_auditoryId req) || truthy (u_endTime req)) eqn:Hsup.
  - pose proof (findFirst_None _ _ _ _ (Hfree eq_refl) Hj) as HP.
    unfold conflicting_with in HP.
    rewrite !bool_decide_eq_true_2, bool_decide_eq_false_2 in HP by done.
    discriminate.
  - apply orb_false_iff in Hsup as [Ha He].
    destruct (endTime_updated req old now Hint Hend) as [[_ Heq]|[Ht _]];
      [|congruence].
    rewrite Heq in Hnew.
    assert (js_or (u_auditoryId req) (auditoryId old) = auditoryId old) as Hsame.
    { unfold truthy, js_or in *. destruct (u_auditoryId req) as [s|]; [|done].
      by destruct (bool_decide (s = "")). }
    rewrite Hsame in Haud.
    apply Hne. by eapply (Hinv j i rj old).
Qed.

Lemma deleteBooking_one_active st i t :
  one_active t (bookings st) → one_active t (bookings (deleteBooking st i).1).
Proof.
  intros Hinv. destruct (deleteBooking_effect st i) as [->| ->]; [done|].
  by apply one_active_delete.
Qed.

Lemma run_one_active ops : ∀ st t,
  one_active t (bookings st) →
  chronological t ops = true →
  one_active (clock t ops) (bookings (run host ops st)).
Proof.
  induction ops as [|op ops IH]; intros st t Hinv Hchr; [done|].
  destruct op as [req now newId insertedAt | i req now | i]; simpl in *.
  - apply andb_true_iff in Hchr as [Hchr Hrest].
    apply andb_true_iff in Hchr as [H1%bool_decide_eq_true H2%bool_decide_eq_true].
    apply IH; [|done].
    apply (one_active_mono now); [done|].
    apply createBooking_one_active. by apply (one_active_mono t).
  - apply andb_true_iff in Hchr as [H1%bool_decide_eq_true Hrest].
    apply IH; [|done].
    apply updateBooking_one_active. by apply (one_active_mono t).
  - apply IH; [|done]. by apply deleteBooking_one_active.
Qed.

Lemma one_active_count t aud (m : gmap string BookingRow) :
  one_active t m → (length (activeBookings t aud m) ≤ 1)%nat.
Proof.
  intros Hinv.
  assert (NoDup (activeBookings t aud m)) as Hnd
    by apply NoDup_filter, NoDup_map_to_list.
  assert (∀ kr, kr ∈ activeBookings t aud m →
                m !! kr.1 = Some kr.2 ∧ auditoryId kr.2 = aud ∧ t < endTime kr.2)
    as Hin.
  { intros [k r] [[? ?] ?%elem_of_map_to_list]%list_elem_of_filter. done. }
  destruct (activeBookings t aud m) as [|[k1 r1] [|[k2 r2] l]]; simpl; [lia..|].
  exfalso.
  destruct (Hin (k1, r1)) as (Hk1 & Ha1 & Ht1); [apply list_elem_of_here|].
  destruct (Hin (k2, r2)) as (Hk2 & Ha2 & Ht2);
    [apply list_elem_of_further, list_elem_of_here|].
  simpl in *.
  assert (k1 = k2) as -> by (eapply Hinv; eauto; congruence).
  assert (r1 = r2) as -> by congruence.
  apply NoDup_cons in Hnd as [Hnot _]. apply Hnot, list_elem_of_here.
Qed.

Lemma chronological_take ops : ∀ n t,
  chronological t ops = true → chronological t (take n ops) = true.
Proof.
  induction ops as [|op ops IH]; intros [|n] t Hchr; [done..|].
  destruct op as [req now newId insertedAt | i req now | i]; simpl in *.
  - apply andb_true_iff in Hchr as [-> Hrest]. by apply IH.
  - apply andb_true_iff in Hchr as [-> Hrest]. by apply IH.
  - by apply IH.
Qed.

(** C1: start from a store without bookings and serve any sequence of
    creates, updates and deletes one after the other, the clock never going
    back; then after every request of the sequence (after its first [n]
    requests, for every [n]), and at any later instant [t], no auditory has
    more than one booking that ends after [t]. *)
Theorem one_active_booking_per_auditory ops n st0 t0 t aud :
  bookings st0 = ∅ →
  chronological t0 ops = true →
  clock t0 (take n ops) ≤ t →
  (length (activeBookings t aud (bookings (run host (take n ops) st0))) ≤ 1)%nat.
Proof.
  intros Hempty Hchr Hle.
  apply one_active_count, (one_active_mono (clock t0 (take n ops))); [done|].
  apply run_one_active; [|by apply chronological_take].
  rewrite Hempty. intros i j ri rj Hi. by rewrite lookup_empty in Hi.
Qed.

(** ** A booking ends after it starts *)

Lemma started_before_end_mono t t' (m : gmap string BookingRow) :
  t ≤ t' → started_before_end t m → started_before_end t' m.
Proof. intros Hle Hinv i r Hi. destruct (Hinv i r Hi). split; [done | lia]. Qed.

(** A create that moves the store has inserted a row. *)
Lemma createBooking_effect_inserts st req now newId insertedAt :
  (createBooking host st req now newId insertedAt).1 = st ∨
  ∃ e,
    Date_parse host (c_endTime req) = Some e ∧
    inserts host st (Create req now newId insertedAt) = true ∧
    (createBooking host st req now newId insertedAt).1
    = with_bookings st
        (<[newId := {| deviceId := c_deviceId req;
                       auditoryId := c_auditoryId req;
                       startTime := insertedAt; endTime := e |}]> (bookings st)).
Proof.
  unfold inserts, step, createBooking.
  destruct (Date_le _ now); [by left|].
  destruct (findFirst _ _) as [[? ?]|]; [by left|].
  unfold booking_create.
  destruct (Date_parse host (c_endTime req)) as [e|]; [|by left].
  case_bool_decide; [by left|].
  destruct (_ && _); [|by left].
  right. by exists e.
Qed.

Lemma createBooking_started st req now newId insertedAt :
  now ≤ insertedAt →
  (inserts host st (Create req now newId insertedAt) = true →
   stamped_before_end host (Create req now newId insertedAt) = true) →
  started_before_end now (bookings st) →
  started_before_end insertedAt
    (bookings (createBooking host st req now newId insertedAt).1).
Proof.
  intros Hle Hstamp Hinv.
  destruct (createBooking_effect_inserts st req now newId insertedAt)
    as [->|(e & Hparse & Hins & ->)];
    [by apply (started_before_end_mono now)|].
  specialize (Hstamp Hins).
  simpl in *. rewrite Hparse in Hstamp. apply bool_decide_eq_true in Hstamp.
  intros i r [[-> <-]|[_ Hi]]%lookup_insert_Some; simpl; [lia|].
  destruct (Hinv i r Hi). split; [done | lia].
Qed.

Lemma updateBooking_started st i req now :
  started_before_end now (bookings st) →
  started_before_end now (bookings (updateBooking host st i req now).1).
Proof.
  intros Hinv.
  destruct (updateBooking_effect st i req now)
    as [->|(old & Hi & Hint & _ & Hend & ->)]; [done|].
  simpl. intros j r [[-> <-]|[_ Hj]]%lookup_insert_Some; [|by apply (Hinv j r)].
  destruct (Hinv j old Hi) as [Hlt Hst].
  destruct (endTime_updated req old now Hint Hend) as [[_ Heq]|[_ Hnew]].
  - rewrite Heq. by simpl.
  - split; [|done].
    change (startTime (apply_data (update_data host req) old))
      with (startTime old). lia.
Qed.

Lemma deleteBooking_started st i t :
  started_before_end t (bookings st) →
  started_before_end t (bookings (deleteBooking st i).1).
Proof.
  intros Hinv. destruct (deleteBooking_effect st i) as [->| ->]; [done|].
  simpl. intros j r [_ Hj]%lookup_delete_Some. by apply (Hinv j r).
Qed.

Lemma run_started ops : ∀ st t,
  started_before_end t (bookings st) →
  chronological t ops = true →
  rows_stamped_before_end host ops st = true →
  started_before_end (clock t ops) (bookings (run host ops st)).
Proof.
  induction ops as [|op ops IH]; intros st t Hinv Hchr Hst; [done|].
  cbn [rows_stamped_before_end] in Hst.
  apply andb_true_iff in Hst as [Hop Hst].
  destruct op as [req now newId insertedAt | i req now | i];
    cbn [chronological clock run fold_left step fst] in *.
  - apply andb_true_iff in Hchr as [Hchr Hrest].
    apply andb_true_iff in Hchr as [H1%bool_decide_eq_true H2%bool_decide_eq_true].
    apply IH; [|done..].
    apply createBooking_started; [done| |].
    { intros Hins. by rewrite Hins in Hop. }
    by apply (started_before_end_mono t).
  - apply andb_true_iff in Hchr as [H1%bool_decide_eq_true Hrest].
    apply IH; [|done..].
    apply updateBooking_started. by apply (started_before_end_mono t).
  - apply IH; [|done..]. by apply deleteBooking_started.
Qed.

(** C7 (amended): a create answered 201 has stored a booking that ends
    strictly after the [now] the create sampled; and after any sequence of
    creates, updates and deletes from a store without bookings, the clock
    never going back and every created row stamped by the store before the
    end its request asked for (a create that is refused creates no row and
    is under no condition), every booking ends after it starts. *)
Theorem booking_ends_after_start :
  (∀ st req now newId insertedAt st' reply,
     createBooking host st req now newId insertedAt = (st', Sent reply) →
     code reply = 201 →
     ∃ r, bookings st' !! newId = Some r ∧ now < endTime r) ∧
  (∀ ops st0 t0 i r,
     bookings st0 = ∅ →
     chronological t0 ops = true →
     rows_stamped_before_end host ops st0 = true →
     bookings (run host ops st0) !! i = Some r →
     startTime r < endTime r).
Proof.
  split.
  - intros st req now newId insertedAt st' reply H Hcode.
    destruct (createBooking_inserted _ _ _ _ _ _ _ H Hcode)
      as (e & dev & aud & _ & Hlt & _ & _ & _ & -> & _).
    eexists. simpl. by rewrite lookup_insert_eq.
  - intros ops st0 t0 i r Hempty Hchr Hst Hi.
    eapply (run_started ops st0 t0); [|done..].
    rewrite Hempty. intros j rj Hj. by rewrite lookup_empty in Hj.
Qed.

(** ** PUT for a device or an auditory that is not there *)

(** C9 (what the code does): a PUT that passes its schema for a device,
    or for an auditory, whose key is not in the table lets the error of
    Prisma escape; the client is answered 500, not 404. *)
Theorem update_of_missing_row_is_500 schema_msg st i :
  (∀ req, devices st !! i = None → ud_name req ≠ Some "" →
     code (respond host (ud_url req) (updateDevice schema_msg st i req).2)
     = 500) ∧
  (∀ req, auditories st !! i = None → ua_name req ≠ Some "" →
     (∀ c, ua_capacity req = Some c → 1 ≤ c) →
     code (respond host (ua_url req)
             (updateAuditory host schema_msg st i req).2)
     = 500).
Proof.
  split.
  - intros req Hi Hname. unfold updateDevice, device_update.
    rewrite bool_decide_eq_false_2, Hi by done. done.
  - intros req Hi Hname Hcap. unfold updateAuditory, auditory_update.
    rewrite (bool_decide_eq_false_2 _ Hname), Hi. simpl.
    destruct (ua_capacity req) as [c|]; simpl; [|done].
    rewrite bool_decide_eq_false_2 by (specialize (Hcap c eq_refl); lia).
    by destruct (capacity_fits host c).
Qed.

End Properties.

(** ** The theorems at work on [sample_host] *)

(** The refused create inserts no row: the rows that are inserted are
    stamped in time, though the end of that create is long past. *)
Example day_after_refusal_codes :
  codes sample_host day_after_refusal store0
  = [400; 201; 409; 200; 201; 409; 204] ∧
  chronological t2029 day_after_refusal = true ∧
  rows_stamped_before_end sample_host day_after_refusal store0 = true ∧
  forallb (stamped_before_end sample_host) day_after_refusal = false.
Proof. vm_compute. done. Qed.

Example day_codes :
  codes sample_host day store0 = [201; 409; 200; 201; 409; 204].
Proof. vm_compute. reflexivity. Qed.

(** After the fourth request b1 is over and b2 is the one active booking
    of a1; read at an instant before 01:00, the same table would show two:
    the clock must not go back. *)
Example day_leaves_b2 :
  run sample_host (take 4 day) store0 = store2 ∧
  activeBookings (t0100 + 10) "a1" (bookings (run sample_host day store0))
  = [("b2", row2)] ∧
  activeBookings (t0100 + 10) "a1" (bookings store2) = [("b2", row2)] ∧
  activeBookings (t2029 + 10) "a1" (bookings store2)
  ≡ₚ [("b1", row1); ("b2", row2)].
Proof.
  split_and!; [vm_compute; reflexivity..|].
  vm_compute activeBookings.
  first [reflexivity | apply Permutation_swap].
Qed.

Lemma createBooking_past_end_witness :
  (createBooking sample_host store1 (post "a1" "2020-01-01T00:00:00.000Z")
     (t2029 + 10) "b2" (t2029 + 15)).1 = store1 ∧
  respond sample_host "/api/bookings"
    (createBooking sample_host store1 (post "a1" "2020-01-01T00:00:00.000Z")
       (t2029 + 10) "b2" (t2029 + 15)).2
  = {| code := 400;
       body := ProblemBody {| p_type := "about:blank"; title := "Bad Request";
                              status := 400; detail := ends_in_future;
                              instance := "/api/bookings";
                              errorsText := None |} |}.
Proof.
  apply (createBooking_past_end sample_host store1
           (post "a1" "2020-01-01T00:00:00.000Z") (t2029 + 10) "b2"
           (t2029 + 15) 1577836800000).
  - reflexivity.
  - unfold t2029. lia.
Defined.

Lemma createBooking_room_busy_witness :
  ∃ k' busy,
    bookings store1 !! k' = Some busy ∧
    auditoryId busy = "a1" ∧
    t2029 + 10 < endTime busy ∧
    (createBooking sample_host store1 (post "a1" "2030-01-01T02:00:00.000Z")
       (t2029 + 10) "b2" (t2029 + 15)).1 = store1 ∧
    respond sample_host "/api/bookings"
      (createBooking sample_host store1 (post "a1" "2030-01-01T02:00:00.000Z")
         (t2029 + 10) "b2" (t2029 + 15)).2
    = {| code := 409;
         body := ProblemBody
           {| p_type := "about:blank"; title := "Conflict"; status := 409;
              detail := busy_until +:+ sample_time (endTime busy);
              instance := "/api/bookings"; errorsText := None |} |}.
Proof.
  apply (createBooking_room_busy sample_host store1
           (post "a1" "2030-01-01T02:00:00.000Z") (t2029 + 10) "b2"
           (t2029 + 15) "b1" row1).
  - vm_compute. reflexivity.
  - reflexivity.
  - vm_compute. reflexivity.
  - vm_compute. reflexivity.
Defined.

(** C4 as stated fails: a1 is busy until 01:00, but a create for a1 whose
    [endTime] lies in 2020 is answered 400, not 409. *)
Lemma createBooking_busy_but_400 :
  bookings store1 !! "b1" = Some row1 ∧
  auditoryId row1 = "a1" ∧
  t2029 + 10 < endTime row1 ∧
  code (respond sample_host "/api/bookings"
          (createBooking sample_host store1
             (post "a1" "2020-01-01T00:00:00.000Z")
             (t2029 + 10) "b2" (t2029 + 15)).2) = 400 ∧
  code (respond sample_host "/api/bookings"
          (createBooking sample_host store1
             (post "a1" "2020-01-01T00:00:00.000Z")
             (t2029 + 10) "b2" (t2029 + 15)).2) ≠ 409.
Proof. vm_compute. split_and!; try reflexivity. discriminate. Qed.

Lemma createBooking_created_witness :
  ∃ e dev aud,
    Date_parse sample_host "2030-01-01T01:00:00.000Z" = Some e ∧
    devices store0 !! "d1" = Some dev ∧
    auditories store0 !! "a1" = Some aud ∧
    bookings store0 !! "b1" = None ∧
    let r := {| deviceId := "d1"; auditoryId := "a1";
                startTime := t2029 + 5; endTime := e |} in
    store1 = with_bookings store0 (<["b1" := r]> (bookings store0)) ∧
    BookingBody {| id := "b1"; row := row1; device := Some device1;
                   auditory := Some auditory1 |}
    = BookingBody {| id := "b1"; row := r; device := Some ("d1", dev);
                     auditory := Some ("a1", aud) |}.
Proof.
  apply (createBooking_created sample_host store0
           (post "a1" "2030-01-01T01:00:00.000Z") t2029 "b1" (t2029 + 5)
           store1
           {| code := 201;
              body := BookingBody {| id := "b1"; row := row1;
                                     device := Some device1;
                                     auditory := Some auditory1 |} |}).
  - vm_compute. reflexivity.
  - reflexivity.
Defined.

(** C2 as stated fails: the create sampled [now = t2029], was answered 201,
    and the row it stored starts at the instant the store stamped it, 5 ms
    later. *)
Lemma createBooking_startTime_is_not_now :
  createBooking sample_host store0 (post "a1" "2030-01-01T01:00:00.000Z")
    t2029 "b1" (t2029 + 5)
  = (store1, Sent {| code := 201;
                     body := BookingBody {| id := "b1"; row := row1;
                                            device := Some device1;
                                            auditory := Some auditory1 |} |}) ∧
  bookings store1 !! "b1" = Some row1 ∧
  startTime row1 ≠ t2029.
Proof. vm_compute. split_and!; try reflexivity. discriminate. Qed.

Lemma updateBooking_not_found_witness :
  (updateBooking sample_host store1 "zz" (put "zz" None (Some "a2") None)
     (t2029 + 10)).1 = store1 ∧
  respond sample_host "/api/bookings/zz"
    (updateBooking sample_host store1 "zz" (put "zz" None (Some "a2") None)
       (t2029 + 10)).2
  = {| code := 404;
       body := ProblemBody {| p_type := "about:blank"; title := "Not Found";
                              status := 404; detail := booking_not_found;
                              instance := "/api/bookings/zz";
                              errorsText := None |} |}.
Proof.
  destruct (updateBooking_not_found sample_host store1 "zz"
              (put "zz" None (Some "a2") None) (t2029 + 10)) as [Hst Hreply].
  - vm_compute. reflexivity.
  - split; [exact Hst | apply Hreply; reflexivity].
Defined.

(** C6 as stated fails: no booking has the key zz, but the update carries
    an [endTime] in 2020 and is answered 400, not 404. *)
Lemma updateBooking_missing_but_400 :
  bookings store1 !! "zz" = None ∧
  code (respond sample_host "/api/bookings/zz"
          (updateBooking sample_host store1 "zz"
             (put "zz" None None (Some "2020-01-01T00:00:00.000Z"))
             (t2029 + 10)).2) = 400 ∧
  code (respond sample_host "/api/bookings/zz"
          (updateBooking sample_host store1 "zz"
             (put "zz" None None (Some "2020-01-01T00:00:00.000Z"))
             (t2029 + 10)).2) ≠ 404.
Proof. vm_compute. split_and!; try reflexivity. discriminate. Qed.

Lemma updateBooking_conflict_check_witness :
  (code (respond sample_host "/api/bookings/b1"
           (updateBooking sample_host store2 "b1"
              (put "b1" None None (Some "2030-01-01T02:00:00.000Z"))
              (t0100 + 10)).2) = 409
   ↔ ∃ k r, k ≠ "b1" ∧ bookings store2 !! k = Some r ∧
            auditoryId r = "a1" ∧ t0100 + 10 < endTime r) ∧
  code (respond sample_host "/api/bookings/b1"
          (updateBooking sample_host store2 "b1"
             (put "b1" (Some "d1") None None) (t0100 + 10)).2) ≠ 409.
Proof.
  split.
  - apply (proj1 (updateBooking_conflict_check sample_host store2 "b1"
                    (put "b1" None None (Some "2030-01-01T02:00:00.000Z"))
                    (t0100 + 10)) row1).
    + vm_compute. reflexivity.
    + vm_compute. reflexivity.
    + reflexivity.
  - apply (proj2 (updateBooking_conflict_check sample_host store2 "b1"
                    (put "b1" (Some "d1") None None) (t0100 + 10))).
    reflexivity.
Defined.

(** C5 as stated fails: the patch supplies [endTime] (as the empty
    string), another booking of b1's auditory a1, b2, ends after [now], and
    the update is answered 200, not 409. *)
Lemma updateBooking_supplied_but_unchecked :
  u_endTime (put "b1" None None (Some "")) = Some "" ∧
  bookings store2 !! "b1" = Some row1 ∧
  bookings store2 !! "b2" = Some row2 ∧
  auditoryId row2 = auditoryId row1 ∧
  t0100 + 10 < endTime row2 ∧
  code (respond sample_host "/api/bookings/b1"
          (updateBooking sample_host store2 "b1"
             (put "b1" None None (Some "")) (t0100 + 10)).2) = 200 ∧
  code (respond sample_host "/api/bookings/b1"
          (updateBooking sample_host store2 "b1"
             (put "b1" None None (Some "")) (t0100 + 10)).2) ≠ 409.
Proof. vm_compute. split_and!; try reflexivity. discriminate. Qed.

Lemma updateBooking_frame_witness :
  ∃ old new,
    bookings store1 !! "b1" = Some old ∧
    bookings (updateBooking sample_host store1 "b1"
                (put "b1" None (Some "a2") None) (t2029 + 10)).1 !! "b1"
    = Some new ∧
    startTime new = startTime old ∧
    (@None string = None → deviceId new = deviceId old) ∧
    (Some "a2" = None → auditoryId new = auditoryId old) ∧
    (@None string = None → endTime new = endTime old) ∧
    (deviceId new ≠ deviceId old → None = Some (deviceId new)) ∧
    (auditoryId new ≠ auditoryId old → Some "a2" = Some (auditoryId new)) ∧
    (endTime new ≠ endTime old →
     sample_parse <$> None = Some (Some (endTime new))) ∧
    (∀ j, j ≠ "b1" →
          bookings (updateBooking sample_host store1 "b1"
                      (put "b1" None (Some "a2") None) (t2029 + 10)).1 !! j
          = bookings store1 !! j) ∧
    devices (updateBooking sample_host store1 "b1"
               (put "b1" None (Some "a2") None) (t2029 + 10)).1
    = devices store1 ∧
    auditories (updateBooking sample_host store1 "b1"
                  (put "b1" None (Some "a2") None) (t2029 + 10)).1
    = auditories store1.
Proof.
  apply (updateBooking_frame sample_host store1 "b1"
           (put "b1" None (Some "a2") None) (t2029 + 10) _
           {| code := 200;
              body := BookingBody
                {| id := "b1";
                   row := {| deviceId := "d1"; auditoryId := "a2";
                             startTime := t2029 + 5;
                             endTime := 1893459600000 |};
                   device := Some device1; auditory := Some auditory2 |} |}).
  - vm_compute. reflexivity.
  - reflexivity.
Defined.

Lemma updateBooking_empty_string_witness :
  updateBooking sample_host store1 "b1" (put "b1" (Some "") (Some "") (Some ""))
    (t2029 + 10)
  = (store1, Sent {| code := 200;
                     body := BookingBody (include store1 "b1" row1) |}).
Proof.
  apply (proj2 (updateBooking_empty_string sample_host store1 "b1"
                  (put "b1" (Some "") (Some "") (Some "")) (t2029 + 10)) row1).
  - vm_compute. reflexivity.
  - reflexivity.
  - reflexivity.
  - reflexivity.
Defined.

Lemma one_active_booking_per_auditory_witness :
  (length (activeBookings (t0100 + 5) "a1"
             (bookings (run sample_host (take 4 day) store0))) ≤ 1)%nat.
Proof.
  apply (one_active_booking_per_auditory sample_host day 4 store0 t2029
           (t0100 + 5) "a1").
  - reflexivity.
  - vm_compute. reflexivity.
  - vm_compute. discriminate.
Defined.

Lemma booking_ends_after_start_witness :
  (∃ r, bookings store1 !! "b1" = Some r ∧ t2029 < endTime r) ∧
  startTime row2 < endTime row2.
Proof.
  split.
  - apply (proj1 (booking_ends_after_start sample_host) store0
             (post "a1" "2030-01-01T01:00:00.000Z") t2029 "b1" (t2029 + 5)
             store1
             {| code := 201;
                body := BookingBody {| id := "b1"; row := row1;
                                       device := Some device1;
                                       auditory := Some auditory1 |} |}).
    + vm_compute. reflexivity.
    + reflexivity.
  - apply (proj2 (booking_ends_after_start sample_host) day_after_refusal
             store0 t2029 "b2" row2).
    + reflexivity.
    + vm_compute. reflexivity.
    + vm_compute. reflexivity.
    + vm_compute. reflexivity.
Defined.

(** C7 as stated fails: a create 2 ms before the end it asks for is
    answered 201; the store stamps the row 3 ms after that end, so the
    booking that exists afterwards does not start before it ends. *)
Lemma booking_starts_after_its_end :
  chronological t2029 late = true ∧
  bookings (run sample_host late store0) !! "b1"
  = Some {| deviceId := "d1"; auditoryId := "a1";
            startTime := 1893456000003; endTime := 1893456000000 |} ∧
  ¬ (1893456000003 < 1893456000000).
Proof. vm_compute. split_and!; try reflexivity. discriminate. Qed.

Lemma update_of_missing_row_is_500_witness :
  code (respond sample_host "/api/devices/zz"
          (updateDevice "" store0 "zz"
             {| ud_url := "/api/devices/zz"; ud_name := Some "beamer";
                ud_id := None |}).2)
  = 500 ∧
  code (respond sample_host "/api/auditories/zz"
          (updateAuditory sample_host "" store0 "zz"
             {| ua_url := "/api/auditories/zz"; ua_name := Some "103";
                ua_capacity := Some 12; ua_id := None |}).2)
  = 500.
Proof.
  split.
  - apply (proj1 (update_of_missing_row_is_500 sample_host "" store0 "zz")
             {| ud_url := "/api/devices/zz"; ud_name := Some "beamer";
                ud_id := None |}).
    + reflexivity.
    + discriminate.
  - apply (proj2 (update_of_missing_row_is_500 sample_host "" store0 "zz")
             {| ua_url := "/api/auditories/zz"; ua_name := Some "103";
                ua_capacity := Some 12; ua_id := None |}).
    + reflexivity.
    + discriminate.
    + intros c [= <-]. lia.
Defined.



(** * The rest of the API *)

Ltac in_list :=
  repeat first [apply list_elem_of_here | apply list_elem_of_further].

Lemma findFirst_None_intro (P : string → BookingRow → bool)
    (m : gmap string BookingRow) :
  (∀ k r, m !! k = Some r → P k r = false) → findFirst P m = None.
Proof.
  intros HP. destruct (findFirst P m) as [[k r]|] eqn:E; [|done].
  apply findFirst_Some in E as [Hk Hr]. rewrite (HP k r Hk) in Hr. done.
Qed.

Lemma with_devices_id st : with_devices st (devices st) = st.
Proof. by destruct st. Qed.

Lemma with_auditories_id st : with_auditories st (auditories st) = st.
Proof. by destruct st. Qed.

(** An escaped error is answered 400 when the schema raised it, else 500. *)
Lemma errorHandler_problem host e url :
  problem_reply url (errorHandler host e url).
Proof.
  unfold problem_reply, errorHandler. eexists. simpl.
  split_and!; try done.
  - destruct e; simpl; in_list.
  - by case_bool_decide.
Qed.

Lemma problem_problem c ttl dtl url :
  c ∈ [400; 404; 409; 500] → dtl ≠ "" →
  ∀ host, problem_reply url (respond host url (problem c ttl dtl url)).
Proof. intros Hc Hd host. unfold problem_reply. eexists. simpl. done. Qed.

Section Routes.

Context (host : Host).

(** ** What each route may write *)

Lemma step_effect st op :
  (step host st op).1 = st ∨
  ∃ m, (step host st op).1 = with_bookings st m.
Proof.
  destruct op as [req now newId insertedAt | i req now | i]; simpl.
  - destruct (createBooking_effect host st req now newId insertedAt)
      as [->|(e & _ & _ & _ & _ & ->)]; eauto.
  - destruct (updateBooking_effect host st i req now)
      as [->|(old & _ & _ & _ & _ & ->)]; eauto.
  - destruct (deleteBooking_effect st i) as [->| ->]; eauto.
Qed.

(** What a route for devices or auditories does to the bookings: nothing,
    unless it is a PUT that goes through with an [id] in its body. *)
Lemma serve_other_bookings st rq :
  (∀ op, rq ≠ Bookings op) →
  bookings (serve host st rq).1 = bookings st ∨
  (∃ msg i req k,
     rq = PutDevice msg i req ∧ ud_id req = Some k ∧
     (k = i ∨ devices st !! k = None) ∧
     code (reply_to host st rq) = 200 ∧
     bookings (serve host st rq).1 = cascade_device i k (bookings st)) ∨
  (∃ msg i req k,
     rq = PutAuditory msg i req ∧ ua_id req = Some k ∧
     (k = i ∨ auditories st !! k = None) ∧
     code (reply_to host st rq) = 200 ∧
     bookings (serve host st rq).1 = cascade_auditory i k (bookings st)).
Proof.
  intros Hrq. unfold reply_to.
  destruct rq as [op|msg req newId|msg i req|i|msg req newId|msg i req|i|];
    simpl; [by destruct (Hrq op) | ..].
  - left. unfold createDevice, device_create.
    repeat case_match; by simplify_eq.
  - unfold updateDevice, device_update.
    case_bool_decide; [by left|].
    destruct (devices st !! i) as [d|]; [|by left].
    destruct (ud_id req) as [k|] eqn:Hk; [|by left].
    destruct (bool_decide (k ≠ i)) eqn:Hne; simpl.
    + destruct (bool_decide (is_Some (devices st !! k))) eqn:Hex; [by left|].
      right; left. exists msg, i, req, k. split_and!; try done.
      right. apply bool_decide_eq_false in Hex. by apply eq_None_not_Some.
    + right; left. exists msg, i, req, k. split_and!; try done.
      left. apply bool_decide_eq_false in Hne.
      by destruct (decide (k = i)).
  - left. unfold deleteDevice, device_delete.
    repeat case_match; by simplify_eq.
  - left. unfold createAuditory, auditory_create.
    repeat case_match; by simplify_eq.
  - unfold updateAuditory, auditory_update.
    destruct (_ || _); [by left|].
    destruct (match ua_capacity req with
              | Some c => negb (capacity_fits host c)
              | None => false
              end); [by left|].
    destruct (auditories st !! i) as [a|]; [|by left].
    destruct (ua_id req) as [k|] eqn:Hk; [|by left].
    destruct (bool_decide (k ≠ i)) eqn:Hne; simpl.
    + destruct (bool_decide (is_Some (auditories st !! k))) eqn:Hex;
        [by left|].
      right; right. exists msg, i, req, k. split_and!; try done.
      right. apply bool_decide_eq_false in Hex. by apply eq_None_not_Some.
    + right; right. exists msg, i, req, k. split_and!; try done.
      left. apply bool_decide_eq_false in Hne.
      by destruct (decide (k = i)).
  - left. unfold deleteAuditory, auditory_delete.
    repeat case_match; by simplify_eq.
  - by left.
Qed.

Lemma follow_device_fields i k r :
  startTime (follow_device i k r) = startTime r ∧
  endTime (follow_device i k r) = endTime r ∧
  auditoryId (follow_device i k r) = auditoryId r ∧
  deviceId (follow_device i k r)
  = if bool_decide (deviceId r = i) then k else deviceId r.
Proof. unfold follow_device. by case_bool_decide. Qed.

Lemma follow_auditory_fields i k r :
  startTime (follow_auditory i k r) = startTime r ∧
  endTime (follow_auditory i k r) = endTime r ∧
  deviceId (follow_auditory i k r) = deviceId r ∧
  auditoryId (follow_auditory i k r)
  = if bool_decide (auditoryId r = i) then k else auditoryId r.
Proof. unfold follow_auditory. by case_bool_decide. Qed.

(** X1: a request to a booking route leaves the devices and the
    auditories as they are.  A request to any other route (its body made
    of [id], [name] and [capacity]) adds no booking, removes none and
    leaves every [startTime] and [endTime] as it is; it leaves every
    [deviceId] ([auditoryId]) as it is unless it is a PUT for a device (an
    auditory) with an [id] in its body; and such a PUT, when it is answered
    200, moves the bookings of the device (the auditory) to the new key
    and changes no other. *)
Theorem routes_keep_to_their_tables st rq :
  (∀ op, rq = Bookings op →
     devices (serve host st rq).1 = devices st ∧
     auditories (serve host st rq).1 = auditories st) ∧
  ((∀ op, rq ≠ Bookings op) →
   (∀ j, startTime <$> bookings (serve host st rq).1 !! j
         = startTime <$> bookings st !! j) ∧
   (∀ j, endTime <$> bookings (serve host st rq).1 !! j
         = endTime <$> bookings st !! j) ∧
   ((∀ msg i req, rq = PutDevice msg i req → ud_id req = None) →
    ∀ j, deviceId <$> bookings (serve host st rq).1 !! j
         = deviceId <$> bookings st !! j) ∧
   ((∀ msg i req, rq = PutAuditory msg i req → ua_id req = None) →
    ∀ j, auditoryId <$> bookings (serve host st rq).1 !! j
         = auditoryId <$> bookings st !! j)) ∧
  (∀ msg i req k,
     rq = PutDevice msg i req → ud_id req = Some k →
     code (reply_to host st rq) = 200 →
     ∀ j, bookings (serve host st rq).1 !! j
          = follow_device i k <$> bookings st !! j) ∧
  (∀ msg i req k,
     rq = PutAuditory msg i req → ua_id req = Some k →
     code (reply_to host st rq) = 200 →
     ∀ j, bookings (serve host st rq).1 !! j
          = follow_auditory i k <$> bookings st !! j).
Proof.
  split_and!.
  - intros op ->. simpl.
    by destruct (step_effect st op) as [->|[m ->]].
  - intros Hrq.
    destruct (serve_other_bookings st rq Hrq)
      as [->|[(msg & i & req & k & -> & Hk & _ & _ & ->)
             |(msg & i & req & k & -> & Hk & _ & _ & ->)]]; [done| |].
    + unfold cascade_device. split_and!.
      * intros j. rewrite lookup_fmap, <- option_fmap_compose.
        apply option_fmap_ext. intros r. apply follow_device_fields.
      * intros j. rewrite lookup_fmap, <- option_fmap_compose.
        apply option_fmap_ext. intros r. apply follow_device_fields.
      * intros Hno. specialize (Hno msg i req eq_refl). congruence.
      * intros _ j. rewrite lookup_fmap, <- option_fmap_compose.
        apply option_fmap_ext. intros r. apply follow_device_fields.
    + unfold cascade_auditory. split_and!.
      * intros j. rewrite lookup_fmap, <- option_fmap_compose.
        apply option_fmap_ext. intros r. apply follow_auditory_fields.
      * intros j. rewrite lookup_fmap, <- option_fmap_compose.
        apply option_fmap_ext. intros r. apply follow_auditory_fields.
      * intros _ j. rewrite lookup_fmap, <- option_fmap_compose.
        apply option_fmap_ext. intros r. apply follow_auditory_fields.
      * intros Hno. specialize (Hno msg i req eq_refl). congruence.
  - intros msg i req k -> Hk Hcode j. revert Hcode. unfold reply_to. simpl.
    unfold updateDevice, device_update. rewrite Hk.
    case_bool_decide; [done|].
    destruct (devices st !! i) as [d|]; [|done].
    destruct (_ && _); [done|]. intros _. simpl.
    unfold cascade_device. by rewrite lookup_fmap.
  - intros msg i req k -> Hk Hcode j. revert Hcode. unfold reply_to. simpl.
    unfold updateAuditory, auditory_update. rewrite Hk.
    destruct (_ || _); [done|].
    destruct (match ua_capacity req with
              | Some c => negb (capacity_fits host c)
              | None => false
              end); [done|].
    destruct (auditories st !! i) as [a|]; [|done].
    destruct (_ && _); [done|]. intros _. simpl.
    unfold cascade_auditory. by rewrite lookup_fmap.
Qed.

(** ** Replies *)

Lemma respond_shape st rq :
  ((serve host st rq).1 = st ∧ problem_reply (request_url rq) (reply_to host st rq)) ∨
  success_reply (reply_to host st rq).
Proof.
  assert (∀ c b, c ∈ [200; 201; 204] → (∀ p, b ≠ ProblemBody p) →
                 success_reply {| code := c; body := b |}) as Hok by done.
  unfold reply_to.
  destruct rq as [[req now newId insertedAt | i req now | i]
                 |msg req newId|msg i req|i|msg req newId|msg i req|i|m url];
    simpl.
  - unfold createBooking.
    destruct (Date_le _ now).
    { left. split; [done|]. apply problem_problem; [in_list | done]. }
    destruct (findFirst _ _) as [[? ?]|].
    { left. split; [done|]. apply problem_problem; [in_list | done]. }
    destruct (booking_create _ _ _ _ _ _) as [e|[st' b]]; simpl.
    + left. split; [done | apply errorHandler_problem].
    + right. apply Hok; [in_list | done].
  - unfold updateBooking.
    destruct (invalid_interval host req now).
    { left. split; [done|]. apply problem_problem; [in_list | done]. }
    destruct (findUnique st i) as [booking|].
    2:{ left. split; [done|]. apply problem_problem; [in_list | done]. }
    destruct (if truthy (u_auditoryId req) || truthy (u_endTime req)
              then findFirst _ _ else None) as [[? ?]|].
    { left. split; [done|]. apply problem_problem; [in_list | done]. }
    destruct (booking_update _ _ _) as [e|[st' b]]; simpl.
    + left. split; [done | apply errorHandler_problem].
    + right. apply Hok; [in_list | done].
  - unfold deleteBooking. destruct (booking_delete st i) as [e|st']; simpl.
    + left. split; [done | apply errorHandler_problem].
    + right. apply Hok; [in_list | done].
  - unfold createDevice.
    destruct (cd_name req) as [nm|];
      [case_bool_decide|]; simpl;
      try (left; split; [done | apply errorHandler_problem]).
    destruct (device_create st _ nm) as [e|[st' d]]; simpl.
    + left. split; [done | apply errorHandler_problem].
    + right. apply Hok; [in_list | done].
  - unfold updateDevice. case_bool_decide; simpl;
      try (left; split; [done | apply errorHandler_problem]).
    destruct (device_update st i _ _) as [e|[st' d]]; simpl.
    + left. split; [done | apply errorHandler_problem].
    + right. apply Hok; [in_list | done].
  - unfold deleteDevice. destruct (device_delete st i) as [e|st']; simpl.
    + left. split; [done | apply errorHandler_problem].
    + right. apply Hok; [in_list | done].
  - unfold createAuditory.
    destruct (ca_name req) as [nm|], (ca_capacity req) as [cap|]; simpl;
      try (left; split; [done | apply errorHandler_problem]).
    destruct (_ || _); simpl;
      try (left; split; [done | apply errorHandler_problem]).
    destruct (auditory_create host st _ nm cap) as [e|[st' d]]; simpl.
    + left. split; [done | apply errorHandler_problem].
    + right. apply Hok; [in_list | done].
  - unfold updateAuditory. destruct (_ || _); simpl;
      try (left; split; [done | apply errorHandler_problem]).
    destruct (auditory_update host st i _ _ _) as [e|[st' d]]; simpl.
    + left. split; [done | apply errorHandler_problem].
    + right. apply Hok; [in_list | done].
  - unfold deleteAuditory. destruct (auditory_delete st i) as [e|st']; simpl.
    + left. split; [done | apply errorHandler_problem].
    + right. apply Hok; [in_list | done].
  - left. split; [done|]. unfold problem_reply, notFoundHandler.
    eexists. simpl. split_and!; try done. in_list.
Qed.

(** X2: whatever the request, the reply is a success (200, 201 or 204,
    never a problem document) or a problem document (400, 404, 409 or 500)
    whose [status] is the status of the reply, whose [type] is about:blank,
    whose [instance] is the url of the request and whose [detail] is not
    empty. *)
Theorem reply_is_success_or_problem st rq :
  success_reply (reply_to host st rq) ∨
  problem_reply (request_url rq) (reply_to host st rq).
Proof. destruct (respond_shape st rq) as [[_ ?]|?]; [by right | by left]. Qed.

(** X3: a request that is not answered 200, 201 or 204 leaves the store
    as it was. *)
Theorem error_leaves_store st rq :
  code (reply_to host st rq) ≠ 200 →
  code (reply_to host st rq) ≠ 201 →
  code (reply_to host st rq) ≠ 204 →
  (serve host st rq).1 = st.
Proof.
  intros H200 H201 H204.
  destruct (respond_shape st rq) as [[? _]|[Hc _]]; [done|].
  set_unfold. tauto.
Qed.

(** ** Deleting *)

(** X4: DELETE of a booking is answered 204 exactly when the booking
    exists, and then that row and no other is gone; otherwise it is
    answered 500. *)
Theorem deleteBooking_204_iff st i :
  (code (reply_to host st (Bookings (Delete i))) = 204
   ↔ is_Some (bookings st !! i)) ∧
  (is_Some (bookings st !! i) →
   (deleteBooking st i).1 = with_bookings st (delete i (bookings st))) ∧
  (bookings st !! i = None →
   code (reply_to host st (Bookings (Delete i))) = 500).
Proof.
  unfold reply_to. simpl. unfold deleteBooking, booking_delete.
  destruct (bookings st !! i) as [r|] eqn:Hi; simpl.
  - split_and!; [by split; eauto | done | done].
  - split_and!; [split; [done | by intros [? ?]] | by intros [? ?] | done].
Qed.

(** X5: DELETE of a device (of an auditory) is answered 204 exactly when
    it exists and no booking refers to it, and then that row and no other
    is gone; while a booking refers to it, the reply is 500 and the store is
    as before. *)
Theorem delete_restricted st i :
  (code (reply_to host st (DeleteDevice i)) = 204
   ↔ is_Some (devices st !! i) ∧
     ∀ k r, bookings st !! k = Some r → deviceId r ≠ i) ∧
  (code (reply_to host st (DeleteDevice i)) = 204 →
   (deleteDevice st i).1 = with_devices st (delete i (devices st))) ∧
  (∀ k r, bookings st !! k = Some r → deviceId r = i →
     (deleteDevice st i).1 = st ∧
     code (reply_to host st (DeleteDevice i)) = 500) ∧
  (code (reply_to host st (DeleteAuditory i)) = 204
   ↔ is_Some (auditories st !! i) ∧
     ∀ k r, bookings st !! k = Some r → auditoryId r ≠ i) ∧
  (code (reply_to host st (DeleteAuditory i)) = 204 →
   (deleteAuditory st i).1 = with_auditories st (delete i (auditories st))) ∧
  (∀ k r, bookings st !! k = Some r → auditoryId r = i →
     (deleteAuditory st i).1 = st ∧
     code (reply_to host st (DeleteAuditory i)) = 500).
Proof.
  unfold reply_to. simpl.
  unfold deleteDevice, device_delete, deleteAuditory, auditory_delete.
  split_and!.
  - destruct (devices st !! i) as [d|]; simpl.
    2:{ split; [done | by intros [[? ?] _]]. }
    destruct (findFirst _ _) as [[k r]|] eqn:E; simpl.
    + apply findFirst_Some in E as [Hk ?%bool_decide_eq_true].
      split; [done | intros [_ Hfree]; by destruct (Hfree k r Hk)].
    + split; [intros _ | done]. split; [by eexists|].
      intros k r Hk Heq. pose proof (findFirst_None _ _ _ _ E Hk) as HP.
      simpl in HP. by rewrite bool_decide_eq_true_2 in HP.
  - destruct (devices st !! i) as [d|]; simpl; [|done].
    by destruct (findFirst _ _) as [[k r]|].
  - intros k r Hk Heq.
    destruct (devices st !! i) as [d|]; simpl; [|done].
    destruct (findFirst _ _) as [[k' r']|] eqn:E; simpl; [done|].
    pose proof (findFirst_None _ _ _ _ E Hk) as HP.
    simpl in HP. by rewrite bool_decide_eq_true_2 in HP.
  - destruct (auditories st !! i) as [d|]; simpl.
    2:{ split; [done | by intros [[? ?] _]]. }
    destruct (findFirst _ _) as [[k r]|] eqn:E; simpl.
    + apply findFirst_Some in E as [Hk ?%bool_decide_eq_true].
      split; [done | intros [_ Hfree]; by destruct (Hfree k r Hk)].
    + split; [intros _ | done]. split; [by eexists|].
      intros k r Hk Heq. pose proof (findFirst_None _ _ _ _ E Hk) as HP.
      simpl in HP. by rewrite bool_decide_eq_true_2 in HP.
  - destruct (auditories st !! i) as [d|]; simpl; [|done].
    by destruct (findFirst _ _) as [[k r]|].
  - intros k r Hk Heq.
    destruct (auditories st !! i) as [d|]; simpl; [|done].
    destruct (findFirst _ _) as [[k' r']|] eqn:E; simpl; [done|].
    pose proof (findFirst_None _ _ _ _ E Hk) as HP.
    simpl in HP. by rewrite bool_decide_eq_true_2 in HP.
Qed.

(** X6: a booking that was created (201) and is deleted right away
    leaves the store exactly as it was before the create. *)
Theorem create_then_delete st req now newId insertedAt st' reply :
  createBooking host st req now newId insertedAt = (st', Sent reply) →
  code reply = 201 →
  deleteBooking st' newId = (st, Sent {| code := 204; body := EmptyBody |}).
Proof.
  intros H Hcode.
  destruct (createBooking_inserted host _ _ _ _ _ _ _ H Hcode)
    as (e & dev & aud & _ & _ & _ & _ & Hid & -> & _).
  unfold deleteBooking, booking_delete. simpl.
  rewrite lookup_insert_eq, delete_insert_id by done.
  by destruct st.
Qed.

(** ** Invariants of the store *)

Lemma renamed_is_Some {A} (m : gmap string A) i k x j :
  is_Some (m !! j) → j ≠ i → is_Some (<[k := x]> (delete i m) !! j).
Proof.
  intros Hj Hne. rewrite lookup_insert_is_Some.
  destruct (decide (k = j)); [by left|]. right. split; [done|].
  by rewrite lookup_delete_ne.
Qed.

Lemma referential_integrity_lookup st :
  referential_integrity st ↔
  ∀ i r, bookings st !! i = Some r →
         is_Some (devices st !! deviceId r) ∧
         is_Some (auditories st !! auditoryId r).
Proof. unfold referential_integrity. by rewrite map_Forall_lookup. Qed.

Lemma createBooking_references st req now newId insertedAt :
  (createBooking host st req now newId insertedAt).1 = st ∨
  ∃ e,
    is_Some (devices st !! c_deviceId req) ∧
    is_Some (auditories st !! c_auditoryId req) ∧
    (createBooking host st req now newId insertedAt).1
    = with_bookings st
        (<[newId := {| deviceId := c_deviceId req;
                       auditoryId := c_auditoryId req;
                       startTime := insertedAt; endTime := e |}]> (bookings st)).
Proof.
  unfold createBooking.
  destruct (Date_le _ now); [by left|].
  destruct (findFirst _ _) as [[? ?]|]; [by left|].
  unfold booking_create.
  destruct (Date_parse host (c_endTime req)) as [e|]; [|by left].
  case_bool_decide; [by left|].
  destruct (bool_decide (is_Some (devices st !! c_deviceId req))) eqn:Hd;
    [|by left].
  destruct (bool_decide (is_Some (auditories st !! c_auditoryId req))) eqn:Ha;
    [|by left].
  apply bool_decide_eq_true in Hd, Ha. right. by exists e.
Qed.

Lemma updateBooking_references st i req now :
  (updateBooking host st i req now).1 = st ∨
  ∃ old,
    bookings st !! i = Some old ∧
    references_ok st (update_data host req) = true ∧
    (updateBooking host st i req now).1
    = with_bookings st
        (<[i := apply_data (update_data host req) old]> (bookings st)).
Proof.
  unfold updateBooking, findUnique.
  destruct (invalid_interval host req now); [by left|].
  destruct (bookings st !! i) as [old|] eqn:Hi; simpl; [|by left].
  destruct (if truthy (u_auditoryId req) || truthy (u_endTime req)
            then findFirst _ _ else None) as [[? ?]|]; [by left|].
  unfold booking_update. rewrite Hi.
  destruct (references_ok st (update_data host req)) eqn:Hrefs.
  - destruct (data_endTime (update_data host req)) as [[e|]|];
      [| by left |]; right; by exists old.
  - left. by destruct (data_endTime (update_data host req)) as [[e|]|].
Qed.

Lemma serve_referential_integrity st rq :
  referential_integrity st → referential_integrity (serve host st rq).1.
Proof.
  rewrite !referential_integrity_lookup. intros Hinv.
  destruct rq as [[req now newId insertedAt | i req now | i]
                 |msg req newId|msg i req|i|msg req newId|msg i req|i|m url];
    simpl.
  - destruct (createBooking_references st req now newId insertedAt)
      as [->|(e & Hd & Ha & ->)]; [done|]. simpl.
    intros j r [[-> <-]|[_ Hj]]%lookup_insert_Some; [done | by apply (Hinv j r)].
  - destruct (updateBooking_references st i req now)
      as [->|(old & Hi & Hrefs & ->)]; [done|]. simpl.
    intros j r [[-> <-]|[_ Hj]]%lookup_insert_Some; [|by apply (Hinv j r)].
    destruct (Hinv j old Hi) as [Hd Ha].
    unfold references_ok in Hrefs. unfold apply_data.
    destruct (update_data host req) as [dd da de]. simpl in *.
    apply andb_true_iff in Hrefs as [Hrd Hra].
    destruct dd, da; simpl;
      try apply bool_decide_eq_true in Hrd;
      try apply bool_decide_eq_true in Hra; split; assumption.
  - destruct (deleteBooking_effect st i) as [->| ->]; [done|]. simpl.
    intros j r [_ Hj]%lookup_delete_Some. by apply (Hinv j r).
  - unfold createDevice, device_create.
    destruct (cd_name req) as [nm|]; [|done].
    case_bool_decide; [done|]. case_bool_decide as Hnew; [done|]. simpl.
    intros j r Hj. destruct (Hinv j r Hj) as [Hd Ha]. split; [|done].
    rewrite lookup_insert_is_Some.
    destruct (decide (default newId (cd_id req) = deviceId r)); eauto.
  - unfold updateDevice, device_update.
    case_bool_decide; [done|].
    destruct (devices st !! i) as [d|] eqn:Hi; [|done].
    destruct (ud_id req) as [k|]; simpl.
    + destruct (_ && _); [done|]. simpl. intros j r' Hj.
      unfold cascade_device in Hj. rewrite lookup_fmap in Hj.
      apply fmap_Some in Hj as (r & Hr & ->).
      destruct (Hinv j r Hr) as [Hd Ha].
      destruct (follow_device_fields i k r) as (_ & _ & -> & ->).
      split; [|done]. case_bool_decide as Hdev.
      * rewrite lookup_insert_eq. by eexists.
      * apply renamed_is_Some; [done | congruence].
    + intros j r Hj. destruct (Hinv j r Hj) as [Hd Ha]. split; [|done].
      rewrite lookup_insert_is_Some. destruct (decide (i = deviceId r)); eauto.
  - unfold deleteDevice, device_delete.
    destruct (devices st !! i) as [d|] eqn:Hi; [|done].
    destruct (findFirst _ _) as [[? ?]|] eqn:E; [done|]. simpl.
    intros j r Hj. destruct (Hinv j r Hj) as [Hd Ha]. split; [|done].
    pose proof (findFirst_None _ _ _ _ E Hj) as HP. simpl in HP.
    apply bool_decide_eq_false in HP. by rewrite lookup_delete_ne.
  - unfold createAuditory, auditory_create.
    destruct (ca_name req) as [nm|], (ca_capacity req) as [cap|]; try done.
    destruct (_ || _); [done|].
    destruct (negb (capacity_fits host cap)); [done|].
    case_bool_decide as Hnew; [done|]. simpl.
    intros j r Hj. destruct (Hinv j r Hj) as [Hd Ha]. split; [done|].
    rewrite lookup_insert_is_Some.
    destruct (decide (default newId (ca_id req) = auditoryId r)); eauto.
  - unfold updateAuditory, auditory_update.
    destruct (_ || _); [done|].
    destruct (match ua_capacity req with
              | Some c => negb (capacity_fits host c)
              | None => false
              end); [done|].
    destruct (auditories st !! i) as [d|] eqn:Hi; [|done].
    destruct (ua_id req) as [k|]; simpl.
    + destruct (_ && _); [done|]. simpl. intros j r' Hj.
      unfold cascade_auditory in Hj. rewrite lookup_fmap in Hj.
      apply fmap_Some in Hj as (r & Hr & ->).
      destruct (Hinv j r Hr) as [Hd Ha].
      destruct (follow_auditory_fields i k r) as (_ & _ & -> & ->).
      split; [done|]. case_bool_decide as Haud.
      * rewrite lookup_insert_eq. by eexists.
      * apply renamed_is_Some; [done | congruence].
    + intros j r Hj. destruct (Hinv j r Hj) as [Hd Ha]. split; [done|].
      rewrite lookup_insert_is_Some.
      destruct (decide (i = auditoryId r)); eauto.
  - unfold deleteAuditory, auditory_delete.
    destruct (auditories st !! i) as [d|] eqn:Hi; [|done].
    destruct (findFirst _ _) as [[? ?]|] eqn:E; [done|]. simpl.
    intros j r Hj. destruct (Hinv j r Hj) as [Hd Ha]. split; [done|].
    pose proof (findFirst_None _ _ _ _ E Hj) as HP. simpl in HP.
    apply bool_decide_eq_false in HP. by rewrite lookup_delete_ne.
  - done.
Qed.

(** X7: referential integrity is kept: if every booking refers to a
    device and to an auditory of the store, this is still so after any
    sequence of requests to any routes. *)
Theorem referential_integrity_kept rqs : ∀ st,
  referential_integrity st → referential_integrity (serve_all host rqs st).
Proof.
  induction rqs as [|rq rqs IH]; intros st Hinv; [done|].
  simpl. by apply IH, serve_referential_integrity.
Qed.

Lemma serve_validated st rq : validated st → validated (serve host st rq).1.
Proof.
  intros [Hd Ha].
  destruct rq as [op|msg req newId|msg i req|i|msg req newId|msg i req|i|m url];
    simpl.
  - by destruct (step_effect st op) as [->|[m ->]].
  - unfold createDevice, device_create.
    destruct (cd_name req) as [nm|]; [|done].
    case_bool_decide; [done|]. case_bool_decide; [done|].
    split; [|done]. simpl. by apply map_Forall_insert_2.
  - unfold updateDevice, device_update.
    case_bool_decide as Hnm; [done|].
    destruct (devices st !! i) as [d|] eqn:Hi; [|done].
    assert (default (name d) (ud_name req) ≠ "") as Hname.
    { destruct (ud_name req) as [nm|]; simpl; [congruence|].
      by apply (map_Forall_lookup_1 _ _ _ _ Hd Hi). }
    destruct (ud_id req) as [k|]; simpl.
    + destruct (_ && _); [done|]. split; [|done]. simpl.
      apply map_Forall_insert_2; [done|]. by apply map_Forall_delete.
    + split; [|done]. simpl. by apply map_Forall_insert_2.
  - unfold deleteDevice, device_delete.
    destruct (devices st !! i) as [d|]; [|done].
    destruct (findFirst _ _) as [[? ?]|]; [done|].
    split; [|done]. simpl. by apply map_Forall_delete.
  - unfold createAuditory, auditory_create.
    destruct (ca_name req) as [nm|], (ca_capacity req) as [cap|]; try done.
    case_bool_decide as Hnm; [done|].
    case_bool_decide as Hcap; [done|]. simpl.
    destruct (negb (capacity_fits host cap)); [done|].
    case_bool_decide; [done|].
    split; [done|]. simpl. apply map_Forall_insert_2; [|done]. simpl.
    split; [done | lia].
  - unfold updateAuditory, auditory_update.
    destruct (bool_decide (ua_name req = Some "")) eqn:Hnm; [done|]. simpl.
    apply bool_decide_eq_false in Hnm.
    destruct (match ua_capacity req with
              | Some c => bool_decide (c < 1)
              | None => false
              end) eqn:Hcap; [done|].
    destruct (match ua_capacity req with
              | Some c => negb (capacity_fits host c)
              | None => false
              end); [done|].
    destruct (auditories st !! i) as [a|] eqn:Hi; [|done].
    destruct (map_Forall_lookup_1 _ _ _ _ Ha Hi) as [Han Hac].
    assert (default (aud_name a) (ua_name req) ≠ "" ∧
            1 ≤ default (capacity a) (ua_capacity req)) as Hnew.
    { split.
      - destruct (ua_name req); simpl; congruence.
      - destruct (ua_capacity req) as [c|]; simpl; [|done].
        apply bool_decide_eq_false in Hcap. lia. }
    destruct (ua_id req) as [k|]; simpl.
    + destruct (_ && _); [done|]. split; [done|]. simpl.
      apply map_Forall_insert_2; [done|]. by apply map_Forall_delete.
    + split; [done|]. simpl. by apply map_Forall_insert_2.
  - unfold deleteAuditory, auditory_delete.
    destruct (auditories st !! i) as [d|]; [|done].
    destruct (findFirst _ _) as [[? ?]|]; [done|].
    split; [done|]. simpl. by apply map_Forall_delete.
  - done.
Qed.

(** X8: for requests whose bodies are made of [id], [name] and
    [capacity], what the schemas check stays true of the tables: if every
    device has a name that is not empty and every auditory a name that is
    not empty and a capacity of at least 1, this is still so after any
    sequence of such requests, a PUT or POST with an [id] of the client's
    choice among them. *)
Theorem validated_kept rqs : ∀ st,
  validated st → validated (serve_all host rqs st).
Proof.
  induction rqs as [|rq rqs IH]; intros st Hinv; [done|].
  simpl. by apply IH, serve_validated.
Qed.

(** ** When a create or an update goes through *)

(** X9: a create is answered 201, and inserts its row, whenever its
    [endTime] parses to an instant after [now], no booking of its auditory
    ends after [now], its device and its auditory exist and the key the
    store picks is new. *)
Theorem createBooking_succeeds st req now newId insertedAt e dev aud :
  Date_parse host (c_endTime req) = Some e →
  now < e →
  (∀ k r, bookings st !! k = Some r →
          auditoryId r = c_auditoryId req → endTime r ≤ now) →
  devices st !! c_deviceId req = Some dev →
  auditories st !! c_auditoryId req = Some aud →
  bookings st !! newId = None →
  let r := {| deviceId := c_deviceId req; auditoryId := c_auditoryId req;
              startTime := insertedAt; endTime := e |} in
  createBooking host st req now newId insertedAt
  = (with_bookings st (<[newId := r]> (bookings st)),
     Sent {| code := 201;
             body := BookingBody {| id := newId; row := r;
                                    device := Some (c_deviceId req, dev);
                                    auditory := Some (c_auditoryId req, aud) |}
          |}).
Proof.
  intros Hparse Hlt Hfree Hd Ha Hid r. unfold createBooking.
  rewrite Hparse. simpl. rewrite bool_decide_eq_false_2 by lia.
  rewrite findFirst_None_intro.
  2:{ intros k rk Hk. apply andb_false_iff.
      destruct (decide (auditoryId rk = c_auditoryId req)) as [Heq|Hne].
      - right. apply bool_decide_eq_false_2. specialize (Hfree k rk Hk Heq). lia.
      - left. by apply bool_decide_eq_false_2. }
  unfold booking_create. rewrite Hid, Hd, Ha.
  rewrite bool_decide_eq_false_2 by (by intros [? ?]).
  rewrite !bool_decide_eq_true_2 by by eexists.
  simpl. unfold include. simpl. by rewrite Hd, Ha.
Qed.

(** X10: once a create has gone through, a create for the same
    auditory at any instant before the end of that booking changes nothing
    and is answered 409, or 400 when its own [endTime] is not after its
    [now]. *)
Theorem second_create_refused
    st req now newId insertedAt st' reply e req2 now2 newId2 insertedAt2 :
  createBooking host st req now newId insertedAt = (st', Sent reply) →
  code reply = 201 →
  Date_parse host (c_endTime req) = Some e →
  c_auditoryId req2 = c_auditoryId req →
  now2 < e →
  (createBooking host st' req2 now2 newId2 insertedAt2).1 = st' ∧
  code (respond host (c_url req2)
          (createBooking host st' req2 now2 newId2 insertedAt2).2)
  = if Date_le (Date_parse host (c_endTime req2)) now2 then 400 else 409.
Proof.
  intros H Hcode Hparse Haud Hlt.
  destruct (createBooking_inserted host _ _ _ _ _ _ _ H Hcode)
    as (e' & dev & aud & Hparse' & _ & _ & _ & _ & -> & _).
  assert (e' = e) as -> by congruence.
  unfold createBooking. destruct (Date_le _ now2); [done|].
  edestruct (findFirst_found
    (λ _ r, bool_decide (auditoryId r = c_auditoryId req2) &&
            bool_decide (now2 < endTime r))
    (<[newId := {| deviceId := c_deviceId req; auditoryId := c_auditoryId req;
                   startTime := insertedAt; endTime := e |}]> (bookings st))
    newId) as [[k busy] E].
  { apply lookup_insert_eq. }
  { simpl. by rewrite !bool_decide_eq_true_2. }
  simpl. by rewrite E.
Qed.

(** X11: a booking does not stand in its own way: an update that
    supplies only a new [endTime], after [now], goes through (200) and sets
    that end whenever no other booking of the same auditory ends after
    [now], whether or not the booking itself is still active. *)
Theorem updateBooking_extends_itself st i req now old s e :
  bookings st !! i = Some old →
  u_deviceId req = None →
  u_auditoryId req = None →
  u_endTime req = Some s →
  s ≠ "" →
  Date_parse host s = Some e →
  now < e →
  (∀ k r, k ≠ i → bookings st !! k = Some r →
          auditoryId r = auditoryId old → endTime r ≤ now) →
  let new := {| deviceId := deviceId old; auditoryId := auditoryId old;
                startTime := startTime old; endTime := e |} in
  let st' := with_bookings st (<[i := new]> (bookings st)) in
  updateBooking host st i req now
  = (st', Sent {| code := 200; body := BookingBody (include st' i new) |}).
Proof.
  intros Hi Hd Ha He Hs Hparse Hlt Hfree new st'.
  assert (newEndAt host req = Some (Some e)) as Hnew.
  { unfold newEndAt. rewrite He. simpl.
    by rewrite (bool_decide_eq_false_2 _ Hs), Hparse. }
  assert (truthy (u_endTime req) = true) as Htr.
  { rewrite He. simpl. by rewrite (bool_decide_eq_false_2 _ Hs). }
  unfold updateBooking, invalid_interval, findUnique, update_data.
  rewrite Hnew, Hd, Ha, Htr, Hi. simpl.
  rewrite bool_decide_eq_false_2 by lia.
  rewrite findFirst_None_intro.
  2:{ intros k r Hk. unfold conflicting_with.
      destruct (decide (k = i)) as [->|Hne].
      - rewrite (bool_decide_eq_true_2 (i = i)) by done.
        by rewrite andb_false_r.
      - destruct (decide (auditoryId r = auditoryId old)) as [Heq|Hneq].
        + rewrite (bool_decide_eq_false_2 (now < endTime r)).
          * by rewrite andb_false_r.
          * specialize (Hfree k r Hne Hk Heq). lia.
        + by rewrite (bool_decide_eq_false_2 _ Hneq). }
  unfold booking_update. simpl. by rewrite Hi.
Qed.

Lemma js_or_idem o d : js_or o (js_or o d) = js_or o d.
Proof. unfold js_or. destruct o as [s|]; [|done]. by case_bool_decide. Qed.

Lemma apply_data_idem d r : apply_data d (apply_data d r) = apply_data d r.
Proof.
  unfold apply_data. simpl.
  destruct (data_deviceId d), (data_auditoryId d),
    (data_endTime d) as [[?|]|]; done.
Qed.

Lemma updateBooking_200_intro st i req now old :
  bookings st !! i = Some old →
  invalid_interval host req now = false →
  no_conflict st i req now old →
  newEndAt host req ≠ Some None →
  references_ok st (update_data host req) = true →
  let st' := with_bookings st
               (<[i := apply_data (update_data host req) old]> (bookings st)) in
  updateBooking host st i req now
  = (st', Sent {| code := 200;
                  body := BookingBody
                    (include st' i (apply_data (update_data host req) old)) |}).
Proof.
  intros Hi Hint Hfree Hend Hrefs st'. unfold no_conflict in Hfree.
  unfold updateBooking, findUnique. rewrite Hint, Hi. simpl.
  rewrite Hfree. unfold booking_update. rewrite Hi, Hrefs.
  change (data_endTime (update_data host req)) with (newEndAt host req).
  by destruct (newEndAt host req) as [[e|]|].
Qed.

Lemma updateBooking_200_inv st i req now st' reply :
  updateBooking host st i req now = (st', Sent reply) →
  code reply = 200 →
  ∃ old,
    bookings st !! i = Some old ∧
    invalid_interval host req now = false ∧
    no_conflict st i req now old ∧
    newEndAt host req ≠ Some None ∧
    references_ok st (update_data host req) = true.
Proof.
  unfold updateBooking, findUnique, problem, no_conflict. intros H Hcode.
  destruct (invalid_interval host req now); [by simplify_eq|].
  destruct (bookings st !! i) as [old|] eqn:Hi; simpl in H; [|by simplify_eq].
  destruct (if truthy (u_auditoryId req) || truthy (u_endTime req)
            then findFirst _ _ else None) as [[? ?]|] eqn:Hc; [by simplify_eq|].
  exists old. unfold booking_update in H. rewrite Hi in H.
  change (data_endTime (update_data host req)) with (newEndAt host req) in H.
  destruct (references_ok st (update_data host req)).
  - split_and!; try done. intros Heq. rewrite Heq in H. by simplify_eq.
  - exfalso. destruct (newEndAt host req) as [[e|]|]; by simplify_eq.
Qed.

(** X12: PUT on a booking is idempotent: an update that went through
    (200), sent again at the same or a later [now2] at which its [endTime]
    still passes the check of the interval, gives the same reply and
    leaves the store as the first one left it. *)
Theorem updateBooking_idempotent st i req now st' reply now2 :
  updateBooking host st i req now = (st', Sent reply) →
  code reply = 200 →
  now ≤ now2 →
  invalid_interval host req now2 = false →
  updateBooking host st' i req now2 = (st', Sent reply).
Proof.
  intros H Hcode Hle Hint2.
  destruct (updateBooking_200_inv _ _ _ _ _ _ H Hcode)
    as (old & Hi & Hint & Hfree & Hend & Hrefs).
  rewrite (updateBooking_200_intro st i req now old) in H by done.
  injection H as <- <-.
  rewrite (updateBooking_200_intro _ i req now2
             (apply_data (update_data host req) old)); try done.
  - simpl. by rewrite apply_data_idem, insert_insert_eq.
  - simpl. apply lookup_insert_eq.
  - unfold no_conflict in *. cbn [bookings with_bookings].
    rewrite auditoryId_updated, js_or_idem.
    destruct (truthy (u_auditoryId req) || truthy (u_endTime req)); [|done].
    apply findFirst_None_intro. intros k r Hk. unfold conflicting_with.
    apply lookup_insert_Some in Hk as [[-> _]|[Hne Hk]].
    + rewrite (bool_decide_eq_true_2 (k = k)) by done.
      by rewrite andb_false_r.
    + pose proof (findFirst_None _ _ _ _ Hfree Hk) as HP.
      unfold conflicting_with in HP.
      rewrite (bool_decide_eq_false_2 (k = i)) in * by done.
      rewrite andb_true_r in *.
      apply andb_false_iff in HP as [HP|HP%bool_decide_eq_false];
        [by rewrite HP|].
      rewrite (bool_decide_eq_false_2 (now2 < endTime r)) by lia.
      by rewrite andb_false_r.
Qed.

(** ** Listing the bookings *)

#[local] Instance later_first_trans : Transitive later_first.
Proof. intros a b c. unfold later_first. lia. Qed.

#[local] Instance later_first_total : Total later_first.
Proof. intros a b. unfold later_first. lia. Qed.

Lemma StronglySorted_lookup {A} (R : relation A) (l : list A) :
  StronglySorted R l →
  ∀ n m a b, (n < m)%nat → l !! n = Some a → l !! m = Some b → R a b.
Proof.
  induction 1 as [|x l Hs IH Hall]; intros n m a b Hlt Hn Hm; [done|].
  destruct m as [|m]; [lia|]. simpl in Hm.
  destruct n as [|n]; simpl in Hn.
  - simplify_eq. rewrite Forall_forall in Hall.
    apply Hall. by eapply list_elem_of_lookup_2.
  - eapply (IH n m); [lia|done..].
Qed.

Lemma elem_of_listBookings st b :
  b ∈ listBookings st ↔ ∃ i r, bookings st !! i = Some r ∧ b = include st i r.
Proof.
  unfold listBookings, booking_findMany. rewrite list_elem_of_fmap. split.
  - intros ([i r] & -> & Hin). rewrite merge_sort_Permutation in Hin.
    apply elem_of_map_to_list in Hin. by exists i, r.
  - intros (i & r & Hi & ->). exists (i, r). split; [done|].
    rewrite merge_sort_Permutation. by apply elem_of_map_to_list.
Qed.

(** X13: GET /api/bookings lists the bookings of the table, all of
    them and each once: a booking is in the list exactly when it is a row
    of the table, expanded; no key comes twice; the list is as long as the
    table is large. *)
Theorem listBookings_complete st :
  (∀ b, b ∈ listBookings st
        ↔ ∃ i r, bookings st !! i = Some r ∧ b = include st i r) ∧
  NoDup (id <$> listBookings st) ∧
  length (listBookings st) = size (bookings st).
Proof.
  split_and!; [apply elem_of_listBookings | ..];
    unfold listBookings, booking_findMany.
  - rewrite <- list_fmap_compose.
    rewrite (merge_sort_Permutation later_first (map_to_list (bookings st))).
    apply NoDup_fst_map_to_list.
  - rewrite length_fmap, merge_sort_Permutation. apply length_map_to_list.
Qed.

(** X14: GET /api/bookings lists the later start first: of two
    bookings in the list, the one further down does not start later. *)
Theorem listBookings_sorted st n m a b :
  (n < m)%nat →
  listBookings st !! n = Some a →
  listBookings st !! m = Some b →
  startTime (row b) ≤ startTime (row a).
Proof.
  intros Hlt Hn Hm.
  apply (StronglySorted_lookup
           (λ x y : Booking, startTime (row y) ≤ startTime (row x))
           (listBookings st)) with n m; try done.
  unfold listBookings, booking_findMany.
  apply (StronglySorted_fmap _ later_first); [done|].
  apply StronglySorted_merge_sort; apply _.
Qed.

(** X15: in a store where every booking refers to a device and to an
    auditory of the store, every booking of the list carries its device
    and its auditory. *)
Theorem listBookings_expanded st b :
  referential_integrity st →
  b ∈ listBookings st →
  ∃ d a,
    devices st !! deviceId (row b) = Some d ∧
    device b = Some (deviceId (row b), d) ∧
    auditories st !! auditoryId (row b) = Some a ∧
    auditory b = Some (auditoryId (row b), a).
Proof.
  intros Hinv Hb.
  apply (proj1 (elem_of_listBookings st b)) in Hb
    as (i & r & Hi & ->).
  apply referential_integrity_lookup in Hinv.
  destruct (Hinv i r Hi) as [[d Hd] [a Ha]].
  exists d, a. unfold include. simpl. by rewrite Hd, Ha.
Qed.

(** ** One active booking for an auditory, whatever the routes *)

Lemma booking_ops_cons rq rqs :
  booking_ops (rq :: rqs)
  = match rq with
    | Bookings op => op :: booking_ops rqs
    | _ => booking_ops rqs
    end.
Proof. by destruct rq. Qed.

(** The cascade of a PUT for a device leaves every booking in its
    auditory; the cascade of a PUT for an auditory moves the bookings of
    that auditory, all of them, to a key that no other auditory has. *)
Lemma serve_other_one_active st rq t :
  (∀ op, rq ≠ Bookings op) →
  referential_integrity st →
  one_active t (bookings st) →
  one_active t (bookings (serve host st rq).1).
Proof.
  intros Hrq Hri Hinv. apply referential_integrity_lookup in Hri.
  destruct (serve_other_bookings st rq Hrq)
    as [->|[(msg & i & req & k & _ & _ & _ & _ & ->)
           |(msg & i & req & k & _ & _ & Hk & _ & ->)]]; [done| |].
  - intros j1 j2 r1' r2' H1 H2.
    unfold cascade_device in H1, H2. rewrite lookup_fmap in H1, H2.
    apply fmap_Some in H1 as (r1 & H1 & ->).
    apply fmap_Some in H2 as (r2 & H2 & ->).
    destruct (follow_device_fields i k r1) as (_ & -> & -> & _).
    destruct (follow_device_fields i k r2) as (_ & -> & -> & _).
    by apply Hinv.
  - intros j1 j2 r1' r2' H1 H2.
    unfold cascade_auditory in H1, H2. rewrite lookup_fmap in H1, H2.
    apply fmap_Some in H1 as (r1 & H1 & ->).
    apply fmap_Some in H2 as (r2 & H2 & ->).
    destruct (follow_auditory_fields i k r1) as (_ & -> & _ & ->).
    destruct (follow_auditory_fields i k r2) as (_ & -> & _ & ->).
    intros Haud. apply Hinv; [done..|].
    destruct (Hri j1 r1 H1) as [_ [a1 Ha1]].
    destruct (Hri j2 r2 H2) as [_ [a2 Ha2]].
    repeat case_bool_decide; try congruence.
    + destruct Hk as [->|Hk]; [congruence|].
      rewrite Haud, Ha2 in Hk. done.
    + destruct Hk as [->|Hk]; [congruence|].
      rewrite <- Haud, Ha1 in Hk. done.
Qed.

Lemma serve_all_one_active rqs : ∀ st t,
  referential_integrity st →
  one_active t (bookings st) →
  chronological t (booking_ops rqs) = true →
  one_active (clock t (booking_ops rqs)) (bookings (serve_all host rqs st)).
Proof.
  induction rqs as [|rq rqs IH]; intros st t Hri Hinv Hchr; [done|].
  rewrite booking_ops_cons in *.
  change (serve_all host (rq :: rqs) st)
    with (serve_all host rqs (serve host st rq).1).
  pose proof (serve_referential_integrity st rq Hri) as Hri'.
  destruct rq as [[req now newId insertedAt | i req now | i]
                 |msg req newId|msg i req|i|msg req newId|msg i req|i|m url];
    try (apply IH; [done| |done]; by apply serve_other_one_active);
    simpl in *.
  - apply andb_true_iff in Hchr as [Hchr Hrest].
    apply andb_true_iff in Hchr as [H1%bool_decide_eq_true H2%bool_decide_eq_true].
    apply IH; [done| |done].
    apply (one_active_mono now); [done|].
    apply createBooking_one_active. by apply (one_active_mono t).
  - apply andb_true_iff in Hchr as [H1%bool_decide_eq_true Hrest].
    apply IH; [done| |done].
    apply updateBooking_one_active. by apply (one_active_mono t).
  - apply IH; [done| |done]. by apply deleteBooking_one_active.
Qed.

(** X16: with requests to the other routes in between, too (their
    bodies made of [id], [name] and [capacity]): from a store in which
    every booking refers to a device and to an auditory of the store and
    no auditory has two bookings that end after [t0], and with a clock
    that never goes back, after any sequence of requests to any routes no
    auditory has more than one booking that ends after [t], for every [t]
    from the last reading of the clock on.  A PUT that gives an auditory
    another key takes all its bookings along, to a key no other auditory
    has. *)
Theorem one_active_any_route rqs st t0 t aud :
  referential_integrity st →
  one_active t0 (bookings st) →
  chronological t0 (booking_ops rqs) = true →
  clock t0 (booking_ops rqs) ≤ t →
  (length (activeBookings t aud (bookings (serve_all host rqs st))) ≤ 1)%nat.
Proof.
  intros Hri Hinv Hchr Hle.
  apply one_active_count, (one_active_mono (clock t0 (booking_ops rqs)));
    [done|].
  by apply serve_all_one_active.
Qed.

(** ** Creating a device or an auditory *)

(** X17: POST /api/auditories is answered 400 exactly when the body
    lacks the name or the capacity, or the name is empty, or the capacity
    is below 1; and when it is answered 201 the body had a name that is not
    empty and a capacity of at least 1 that the column can hold, the key
    (the [id] of the body when it has one, else the key the store picked)
    was new, and the auditory is in the table under that key. *)
Theorem createAuditory_checked msg st req newId :
  let ok := ∃ nm cap, ca_name req = Some nm ∧ nm ≠ "" ∧
                      ca_capacity req = Some cap ∧ 1 ≤ cap in
  let key := default newId (ca_id req) in
  (code (reply_to host st (PostAuditory msg req newId)) = 400 ↔ ¬ ok) ∧
  (code (reply_to host st (PostAuditory msg req newId)) = 201 →
   ∃ nm cap,
     ca_name req = Some nm ∧ nm ≠ "" ∧
     ca_capacity req = Some cap ∧ 1 ≤ cap ∧
     capacity_fits host cap = true ∧
     auditories st !! key = None ∧
     (createAuditory host msg st req newId).1
     = with_auditories st
         (<[key := {| aud_name := nm; capacity := cap |}]> (auditories st))).
Proof.
  unfold reply_to. simpl. unfold createAuditory, auditory_create.
  destruct (ca_name req) as [nm|], (ca_capacity req) as [cap|]; simpl;
    try (split; [split; [by intros _ (? & ? & ? & ? & ? & ?) | done] | done]).
  case_bool_decide as Hnm; simpl.
  { split; [|done]. split; [|done].
    intros _ (? & ? & ? & ? & ? & ?). congruence. }
  case_bool_decide as Hcap; simpl.
  { split; [|done]. split; [|done].
    intros _ (? & ? & ? & ? & ? & ?). simplify_eq. lia. }
  assert (∃ nm0 cap0, Some nm = Some nm0 ∧ nm0 ≠ "" ∧
                      Some cap = Some cap0 ∧ 1 ≤ cap0) as Hok.
  { exists nm, cap. split_and!; try done. lia. }
  destruct (capacity_fits host cap) eqn:Hfits; simpl.
  2:{ split; [by split | done]. }
  case_bool_decide as Hnew; simpl.
  - split; [by split | done].
  - split; [by split|]. intros _. exists nm, cap.
    split_and!; try done; [lia | by apply eq_None_not_Some].
Qed.

(** ** The handler and its earlier version *)

(** X18: the present POST /api/bookings decides as its earlier version
    did: on every request both leave the same store, and they answer with
    the same status and the same detail, the same booking, or let the same
    error escape. *)
Theorem createBooking_as_before st req now newId insertedAt :
  (Earlier.createBooking host st req now newId insertedAt).1
  = (createBooking host st req now newId insertedAt).1 ∧
  Earlier.same_answer
    (Earlier.createBooking host st req now newId insertedAt).2
    (createBooking host st req now newId insertedAt).2.
Proof.
  unfold Earlier.createBooking, createBooking, problem.
  destruct (Date_le _ now); simpl; [by eauto 10|].
  destruct (findFirst _ _) as [[? ?]|]; simpl; [by eauto 10|].
  by destruct (booking_create _ _ _ _ _ _) as [e|[st' b]].
Qed.

End Routes.

(** ** The rest of the API at work on [sample_host] *)

Example session_statuses :
  statuses sample_host session empty_store
  = [201; 201; 201; 400; 201; 500; 500; 204; 404].
Proof. vm_compute. reflexivity. Qed.

Example store2_listed :
  listBookings store2
  = [ {| id := "b2"; row := row2; device := Some device1;
         auditory := Some auditory1 |};
      {| id := "b1"; row := row1; device := Some device1;
         auditory := Some auditory1 |} ].
Proof. vm_compute. reflexivity. Qed.

Lemma store1_bookings : bookings store1 = {[ "b1" := row1 ]}.
Proof. vm_compute. reflexivity. Qed.

Example rename_d1_cascades :
  code (reply_to sample_host store1 rename_d1) = 200 ∧
  devices (serve sample_host store1 rename_d1).1
  = {[ "d9" := {| name := "projector" |} ]} ∧
  bookings (serve sample_host store1 rename_d1).1
  = {[ "b1" := {| deviceId := "d9"; auditoryId := "a1";
                  startTime := t2029 + 5; endTime := 1893459600000 |} ]}.
Proof. vm_compute. done. Qed.

Example session_renaming_statuses :
  statuses sample_host session_renaming empty_store
  = [201; 201; 201; 400; 201; 500; 500; 204; 404; 200; 409; 500; 500; 201].
Proof. vm_compute. reflexivity. Qed.

Lemma routes_keep_to_their_tables_witness :
  (devices store1 = devices store0 ∧ auditories store1 = auditories store0) ∧
  (∀ j, auditoryId <$> bookings (serve sample_host store1 rename_d1).1 !! j
        = auditoryId <$> bookings store1 !! j) ∧
  (∀ j, bookings (serve sample_host store1 rename_d1).1 !! j
        = follow_device "d1" "d9" <$> bookings store1 !! j) ∧
  (∀ j, bookings (serve sample_host store1 rename_a1).1 !! j
        = follow_auditory "a1" "a9" <$> bookings store1 !! j).
Proof.
  split; [|split; [|split]].
  - apply (proj1 (routes_keep_to_their_tables sample_host store0
                    (Bookings (Create (post "a1" "2030-01-01T01:00:00.000Z")
                                 t2029 "b1" (t2029 + 5))))
             (Create (post "a1" "2030-01-01T01:00:00.000Z") t2029 "b1"
                (t2029 + 5))).
    reflexivity.
  - destruct (routes_keep_to_their_tables sample_host store1 rename_d1)
      as (_ & Hkeep & _ & _).
    destruct Hkeep as (_ & _ & _ & Haud); [intros op; discriminate|].
    apply Haud. intros msg i req. discriminate.
  - destruct (routes_keep_to_their_tables sample_host store1 rename_d1)
      as (_ & _ & Hdev & _).
    apply (Hdev "" "d1"
             {| ud_url := "/api/devices/d1"; ud_name := None;
                ud_id := Some "d9" |} "d9"); reflexivity.
  - destruct (routes_keep_to_their_tables sample_host store1 rename_a1)
      as (_ & _ & _ & Haud).
    apply (Haud "" "a1"
             {| ua_url := "/api/auditories/a1"; ua_name := None;
                ua_capacity := None; ua_id := Some "a9" |} "a9"); reflexivity.
Defined.

Lemma error_leaves_store_witness :
  (serve sample_host store1 (DeleteDevice "d1")).1 = store1.
Proof.
  apply (error_leaves_store sample_host store1 (DeleteDevice "d1"));
    vm_compute; discriminate.
Defined.

Lemma deleteBooking_204_iff_witness :
  (deleteBooking store1 "b1").1
  = with_bookings store1 (delete "b1" (bookings store1)) ∧
  code (reply_to sample_host store1 (Bookings (Delete "zz"))) = 500.
Proof.
  destruct (deleteBooking_204_iff sample_host store1 "b1") as (_ & Hgone & _).
  destruct (deleteBooking_204_iff sample_host store1 "zz") as (_ & _ & H500).
  split.
  - apply Hgone. vm_compute. eexists. reflexivity.
  - apply H500. vm_compute. reflexivity.
Defined.

Lemma delete_restricted_witness :
  ((deleteDevice store1 "d1").1 = store1 ∧
   code (reply_to sample_host store1 (DeleteDevice "d1")) = 500) ∧
  ((deleteAuditory store1 "a1").1 = store1 ∧
   code (reply_to sample_host store1 (DeleteAuditory "a1")) = 500) ∧
  (deleteAuditory store1 "a2").1
  = with_auditories store1 (delete "a2" (auditories store1)).
Proof.
  destruct (delete_restricted sample_host store1 "d1")
    as (_ & _ & Hdev & _ & _ & _).
  destruct (delete_restricted sample_host store1 "a1")
    as (_ & _ & _ & _ & _ & Haud).
  destruct (delete_restricted sample_host store1 "a2")
    as (_ & _ & _ & _ & Hgone & _).
  split; [|split].
  - apply (Hdev "b1" row1); vm_compute; reflexivity.
  - apply (Haud "b1" row1); vm_compute; reflexivity.
  - apply Hgone. vm_compute. reflexivity.
Defined.

Lemma create_then_delete_witness :
  deleteBooking store1 "b1"
  = (store0, Sent {| code := 204; body := EmptyBody |}).
Proof.
  apply (create_then_delete sample_host store0
           (post "a1" "2030-01-01T01:00:00.000Z") t2029 "b1" (t2029 + 5)
           store1
           {| code := 201;
              body := BookingBody {| id := "b1"; row := row1;
                                     device := Some device1;
                                     auditory := Some auditory1 |} |}).
  - vm_compute. reflexivity.
  - reflexivity.
Defined.

Lemma referential_integrity_kept_witness :
  referential_integrity (serve_all sample_host session empty_store).
Proof.
  apply (referential_integrity_kept sample_host session empty_store).
  apply map_Forall_empty.
Defined.

Lemma validated_kept_witness :
  validated (serve_all sample_host session empty_store).
Proof.
  apply (validated_kept sample_host session empty_store).
  split; apply map_Forall_empty.
Defined.

Lemma createBooking_succeeds_witness :
  createBooking sample_host store0 (post "a1" "2030-01-01T01:00:00.000Z")
    t2029 "b1" (t2029 + 5)
  = (with_bookings store0 (<["b1" := row1]> (bookings store0)),
     Sent {| code := 201;
             body := BookingBody {| id := "b1"; row := row1;
                                    device := Some device1;
                                    auditory := Some auditory1 |} |}).
Proof.
  apply (createBooking_succeeds sample_host store0
           (post "a1" "2030-01-01T01:00:00.000Z") t2029 "b1" (t2029 + 5)
           1893459600000 {| name := "projector" |}
           {| aud_name := "101"; capacity := 30 |}).
  - reflexivity.
  - vm_compute. reflexivity.
  - intros k r Hk. simpl in Hk. by rewrite lookup_empty in Hk.
  - vm_compute. reflexivity.
  - vm_compute. reflexivity.
  - reflexivity.
Defined.

Lemma second_create_refused_witness :
  (createBooking sample_host store1 (post "a1" "2030-01-01T02:00:00.000Z")
     (t2029 + 10) "b2" (t2029 + 15)).1 = store1 ∧
  code (respond sample_host "/api/bookings"
          (createBooking sample_host store1
             (post "a1" "2030-01-01T02:00:00.000Z")
             (t2029 + 10) "b2" (t2029 + 15)).2)
  = if Date_le (sample_parse "2030-01-01T02:00:00.000Z") (t2029 + 10)
    then 400 else 409.
Proof.
  apply (second_create_refused sample_host store0
           (post "a1" "2030-01-01T01:00:00.000Z") t2029 "b1" (t2029 + 5)
           store1
           {| code := 201;
              body := BookingBody {| id := "b1"; row := row1;
                                     device := Some device1;
                                     auditory := Some auditory1 |} |}
           1893459600000
           (post "a1" "2030-01-01T02:00:00.000Z") (t2029 + 10) "b2"
           (t2029 + 15)).
  - vm_compute. reflexivity.
  - reflexivity.
  - reflexivity.
  - reflexivity.
  - vm_compute. reflexivity.
Defined.

Lemma updateBooking_extends_itself_witness :
  let new := {| deviceId := "d1"; auditoryId := "a1";
                startTime := t2029 + 5; endTime := 1893463200000 |} in
  let st' := with_bookings store1 (<["b1" := new]> (bookings store1)) in
  updateBooking sample_host store1 "b1"
    (put "b1" None None (Some "2030-01-01T02:00:00.000Z")) (t2029 + 10)
  = (st', Sent {| code := 200; body := BookingBody (include st' "b1" new) |}).
Proof.
  apply (updateBooking_extends_itself sample_host store1 "b1"
           (put "b1" None None (Some "2030-01-01T02:00:00.000Z"))
           (t2029 + 10) row1 "2030-01-01T02:00:00.000Z" 1893463200000).
  - vm_compute. reflexivity.
  - reflexivity.
  - reflexivity.
  - reflexivity.
  - discriminate.
  - reflexivity.
  - vm_compute. reflexivity.
  - intros k r Hne Hk. rewrite store1_bookings in Hk.
    apply lookup_singleton_Some in Hk as [Heq _]. by destruct Hne.
Defined.

Lemma updateBooking_idempotent_witness :
  updateBooking sample_host
    (updateBooking sample_host store1 "b1" (put "b1" None (Some "a2") None)
       (t2029 + 10)).1
    "b1" (put "b1" None (Some "a2") None) (t2029 + 20)
  = ((updateBooking sample_host store1 "b1" (put "b1" None (Some "a2") None)
        (t2029 + 10)).1,
     Sent {| code := 200;
             body := BookingBody
               {| id := "b1";
                  row := {| deviceId := "d1"; auditoryId := "a2";
                            startTime := t2029 + 5;
                            endTime := 1893459600000 |};
                  device := Some device1; auditory := Some auditory2 |} |}).
Proof.
  apply (updateBooking_idempotent sample_host store1 "b1"
           (put "b1" None (Some "a2") None) (t2029 + 10)).
  - vm_compute. reflexivity.
  - reflexivity.
  - lia.
  - reflexivity.
Defined.

Lemma listBookings_sorted_witness : startTime row1 ≤ startTime row2.
Proof.
  apply (listBookings_sorted store2 0 1
           {| id := "b2"; row := row2; device := Some device1;
              auditory := Some auditory1 |}
           {| id := "b1"; row := row1; device := Some device1;
              auditory := Some auditory1 |}).
  - lia.
  - vm_compute. reflexivity.
  - vm_compute. reflexivity.
Defined.

Lemma store2_bookings : bookings store2 = {[ "b1" := row1; "b2" := row2 ]}.
Proof. vm_compute. reflexivity. Qed.

Lemma listBookings_expanded_witness :
  ∃ d a,
    devices store2 !! "d1" = Some d ∧
    Some device1 = Some ("d1", d) ∧
    auditories store2 !! "a1" = Some a ∧
    Some auditory1 = Some ("a1", a).
Proof.
  apply (listBookings_expanded store2
           {| id := "b2"; row := row2; device := Some device1;
              auditory := Some auditory1 |}).
  - unfold referential_integrity. rewrite store2_bookings.
    apply map_Forall_insert_2; [vm_compute; split; eexists; reflexivity|].
    apply map_Forall_insert_2; [vm_compute; split; eexists; reflexivity|].
    apply map_Forall_empty.
  - rewrite store2_listed. apply list_elem_of_here.
Defined.

Lemma one_active_any_route_witness :
  (length (activeBookings (t2029 + 35) "a9"
             (bookings (serve_all sample_host session_renaming empty_store)))
   ≤ 1)%nat.
Proof.
  apply (one_active_any_route sample_host session_renaming empty_store t2029
           (t2029 + 35) "a9").
  - apply map_Forall_empty.
  - intros i j ri rj Hi. simpl in Hi. by rewrite lookup_empty in Hi.
  - vm_compute. reflexivity.
  - vm_compute. discriminate.
Defined.

Lemma createAuditory_checked_witness :
  ∃ nm cap,
    Some "101" = Some nm ∧ nm ≠ "" ∧
    Some 30 = Some cap ∧ 1 ≤ cap ∧
    capacity_fits sample_host cap = true ∧
    auditories empty_store !! "a7" = None ∧
    (createAuditory sample_host "" empty_store
       {| ca_url := "/api/auditories"; ca_name := Some "101";
          ca_capacity := Some 30; ca_id := Some "a7" |} "a1").1
    = with_auditories empty_store
        (<["a7" := {| aud_name := nm; capacity := cap |}]>
           (auditories empty_store)).
Proof.
  apply (proj2 (createAuditory_checked sample_host "" empty_store
                  {| ca_url := "/api/auditories"; ca_name := Some "101";
                     ca_capacity := Some 30; ca_id := Some "a7" |} "a1")).
  vm_compute. reflexivity.
Defined.
